(** * OpenAI-compatible content generator and content-generator factory

    A shallow embedding of [packages/core/src/core/openaiCompatible.ts]
    (class [OpenAICompatibleContentGenerator]) and of the resolver and
    factory of [contentGenerator.ts] ([createContentGeneratorConfig],
    [createContentGenerator]), followed by the properties stated about
    them.

    Conventions of the embedding:
    - a JavaScript value that may be [undefined] is an [option]; [None]
      is [undefined];
    - [process.env] and header objects are finite maps from names to
      strings;
    - a call that may throw returns an [outcome]; code that talks to the
      network runs in the monad [M], which threads the [World] (the
      network and the list of requests sent so far). *)

From Stdlib Require Import ZArith QArith Strings.String Strings.Ascii.
From Stdlib Require Import Numbers.DecimalString.
From stdpp Require Import base option list gmap strings fin_maps.

#[local] Set Warnings "-register-all".

Local Open Scope string_scope.
Local Open Scope list_scope.

(* ===================================================================== *)
(** ** JavaScript values                                                  *)
(* ===================================================================== *)

Module Js.

(** The line feed, written ['\n'] in the source. *)
Definition nl : string := String "010"%char EmptyString.

(** [Boolean(s)] for a string: the empty string is the only falsy one. *)
Definition nonempty (s : string) : bool :=
  match s with
  | EmptyString => false
  | String _ _ => true
  end.

(** [a || b] where [a] is a string or [undefined]. *)
Definition or_else (a : option string) (b : string) : string :=
  match a with
  | Some s => if nonempty s then s else b
  | None => b
  end.

(** [a || undefined]. *)
Definition or_undefined (a : option string) : option string :=
  match a with
  | Some s => if nonempty s then Some s else None
  | None => None
  end.

(** [a || b || undefined]. *)
Definition or_chain (a b : option string) : option string :=
  match or_undefined a with
  | Some s => Some s
  | None => or_undefined b
  end.

(** [`${x}`] for a string or [undefined]. *)
Definition template (x : option string) : string :=
  match x with
  | Some s => s
  | None => "undefined"
  end.

(** [`${n}`] for a non-negative integer such as an HTTP status. *)
Definition show_N (n : N) : string :=
  NilZero.string_of_uint (N.to_uint n).

(** [Array.prototype.join] on an array of strings. *)
Fixpoint join (sep : string) (l : list string) : string :=
  match l with
  | [] => EmptyString
  | x :: rest =>
      match rest with
      | [] => x
      | _ :: _ => x +:+ sep +:+ join sep rest
      end
  end.

(** [s.replace(/\/$/, '')]: without the [m] flag [$] matches at the end
    of the input only, and without the [g] flag one match is replaced:
    a single final slash is removed. *)
Fixpoint strip_trailing_slash (s : string) : string :=
  match s with
  | EmptyString => EmptyString
  | String c rest =>
      match rest with
      | EmptyString => if Ascii.eqb c "/"%char then EmptyString else s
      | String _ _ => String c (strip_trailing_slash rest)
      end
  end.

(** Whether the last character of [s] is a slash. *)
Fixpoint ends_with_slash (s : string) : bool :=
  match s with
  | EmptyString => false
  | String c rest =>
      match rest with
      | EmptyString => Ascii.eqb c "/"%char
      | String _ _ => ends_with_slash rest
      end
  end.

(** [needle] occurs in [hay]. *)
Definition occurs_in (needle hay : string) : Prop :=
  exists pre post, hay = pre +:+ needle +:+ post.

(** The values [JSON.parse] produces.  Numbers are the integers: the
    only numbers the adapter looks at are token counts, and it only
    tests them for zero or passes them on. *)
Inductive json : Type :=
| JNull
| JBool (b : bool)
| JNum (n : Z)
| JStr (s : string)
| JArr (items : list json)
| JObj (fields : list (string * json)).

(** [Boolean(v)]. *)
Definition truthy (v : json) : bool :=
  match v with
  | JNull => false
  | JBool b => b
  | JNum n => negb (n =? 0)%Z
  | JStr s => nonempty s
  | JArr _ | JObj _ => true
  end.

(** Own property [k] of a parsed object, its fields in order. *)
Fixpoint assoc (k : string) (fields : list (string * json)) : option json :=
  match fields with
  | [] => None
  | (k', v) :: rest => if String.eqb k k' then Some v else assoc k rest
  end.

(** [v.k] on a value that is neither [null] nor [undefined], for a
    property name [k] that is not an index, not [length] and not a
    method: only objects have such a property. *)
Definition prop (k : string) (v : json) : option json :=
  match v with
  | JObj fields => assoc k fields
  | _ => None
  end.

(** [v[0]] on a value that is neither [null] nor [undefined]. *)
Definition index0 (v : json) : option json :=
  match v with
  | JArr items => head items
  | JObj fields => assoc "0" fields
  | JStr (String c _) => Some (JStr (String c EmptyString))
  | _ => None
  end.

(** [v?.k] and [v?.[0]]: [undefined] when [v] is [null] or [undefined]. *)
Definition chain (f : json -> option json) (v : option json) : option json :=
  match v with
  | None | Some JNull => None
  | Some x => f x
  end.

(** [v ?? d]. *)
Definition nullish (v : option json) (d : json) : json :=
  match v with
  | None | Some JNull => d
  | Some x => x
  end.

(** What a call can throw: [new Error(m)], and the run time's own
    [TypeError] and [SyntaxError]. *)
Inductive error : Type :=
| Error (message : string)
| TypeError (message : string)
| SyntaxError (message : string).

(** The result of a call: a value or a thrown error (a rejected
    promise). *)
Inductive outcome (A : Type) : Type :=
| Ok (a : A)
| Throw (e : error).
Arguments Ok {A} a.
Arguments Throw {A} e.

End Js.
Import Js.

(* ===================================================================== *)
(** ** The adapter: [OpenAICompatibleContentGenerator]                    *)
(* ===================================================================== *)

Module OpenAICompatible.

(** *** The canonical model, as far as the adapter reads it *)

(** A [Part] object of @google/genai: [text?: string]; the variants that
    carry media are kept as an opaque reference. *)
Record Part := {
  text : option string;
  inlineData : option string;
}.

(** An element of [parts]: [partsToText] tests [typeof p === 'string']. *)
Inductive PartItem :=
| PartString (s : string)
| PartObject (p : Part).

Record Content := {
  role : option string;
  parts : option (list PartItem);
}.

(** What a request may give as [contents]. *)
Inductive ContentListUnion :=
| OneContent (c : Content)
| ManyContents (cs : list Content).

(** Modelled from the spec: [toContents] of [code_assist/converter.js],
    imported by the adapter, "accepts either a single Content or a
    sequence and returns a normalized sequence". *)
Definition toContents (u : ContentListUnion) : list Content :=
  match u with
  | OneContent c => [c]
  | ManyContents cs => cs
  end.

(** A tool declaration, opaque. *)
Inductive Tool := ToolDecl (name : string).

Record GenerateContentConfig := {
  cfg_temperature : option Q;
  cfg_topP : option Q;
  cfg_tools : option (list Tool);
}.

Record GenerateContentParameters := {
  req_model : option string;
  req_contents : ContentListUnion;
  req_config : option GenerateContentConfig;
}.

(** The response built by [fromOpenAIChatCompletion].  The text comes
    from [data: any]: the part stores the value as the wire gave it. *)
Record CandidatePart := { part_text : json }.

Record CandidateContent := {
  cand_role : string;
  cand_parts : list CandidatePart;
}.

Record Candidate := {
  content : CandidateContent;
  index : Z;
}.

Record UsageMetadata := {
  promptTokenCount : option json;
  candidatesTokenCount : option json;
  totalTokenCount : option json;
}.

Record GenerateContentResponse := {
  modelVersion : string;
  candidates : list Candidate;
  usageMetadata : UsageMetadata;
}.

Record CountTokensResponse := { totalTokens : Z }.
Record EmbedContentResponse := { embeddings : list (list Q) }.

(** *** The wire *)

Record ChatMessage := {
  msg_role : string;
  msg_content : string;
}.

(** The object handed to [JSON.stringify]; a field that is [undefined]
    is left out of the text. *)
Record ChatBody := {
  body_model : string;
  body_messages : list ChatMessage;
  body_temperature : option Q;
  body_top_p : option Q;
  body_tools : option (list Tool);
  body_stream : bool;
}.

Record HttpRequest := {
  url : string;
  method : string;
  req_headers : gmap string string;
  body : ChatBody;
}.

(** A response: [status], the text [resp.text()] gives, and the value
    [resp.json()] gives ([None] when the text is not JSON). *)
Record Response := {
  status : N;
  body_text : string;
  body_json : option json;
}.

(** [resp.ok]: the status is in the range 200-299. *)
Definition ok (r : Response) : bool :=
  (200 <=? status r)%N && (status r <=? 299)%N.

(** The network answers a request, given the requests sent before it,
    with a response or a failure of [fetch] itself; [sent] lists the
    requests issued so far, oldest first. *)
Record World := {
  network : list HttpRequest -> HttpRequest -> outcome Response;
  sent : list HttpRequest;
}.

(** *** Calls that use the network *)

Definition M (A : Type) : Type := World -> outcome A * World.

Definition ret {A} (a : A) : M A := fun w => (Ok a, w).

Definition throw {A} (e : error) : M A := fun w => (Throw e, w).

Definition bind {A B} (m : M A) (k : A -> M B) : M B :=
  fun w =>
    match m w with
    | (Ok a, w') => k a w'
    | (Throw e, w') => (Throw e, w')
    end.

Notation "'let!' x ':=' m 'in' k" := (bind m (fun x => k))
  (at level 10, x name, m at level 100, k at level 200).

(** The world after one more request. *)
Definition after (w : World) (r : HttpRequest) : World :=
  {| network := network w; sent := sent w ++ [r] |}.

(** [await fetch(url, {method, headers, body})]. *)
Definition fetch (r : HttpRequest) : M Response :=
  fun w => (network w (sent w) r, after w r).

(** [await resp.json()]. *)
Definition resp_json (r : Response) : M json :=
  match body_json r with
  | Some d => ret d
  | None => throw (SyntaxError "Unexpected token in JSON")
  end.

(** *** The class *)

Record OpenAICompatibleOptions := {
  opt_baseUrl : option string;
  opt_apiKey : option string;
  opt_model : string;
  opt_httpHeaders : option (gmap string string);
}.

Record OpenAICompatibleContentGenerator := {
  baseUrl : string;
  apiKey : option string;
  defaultModel : string;
  headers : gmap string string;
}.

(** The constructor.  The options are typed [baseUrl: string], but the
    factory passes [config.baseUrl!], which is erased at run time: an
    [undefined] reaches [opts.baseUrl.replace] and throws. The spread of
    [httpHeaders] comes last, so its keys win. *)
Definition new (opts : OpenAICompatibleOptions) :
    outcome OpenAICompatibleContentGenerator :=
  match opt_baseUrl opts with
  | None =>
      Throw (TypeError "Cannot read properties of undefined (reading 'replace')")
  | Some u =>
      Ok {| baseUrl := strip_trailing_slash u;
            apiKey := opt_apiKey opts;
            defaultModel := opt_model opts;
            headers :=
              default ∅ (opt_httpHeaders opts) ∪
              <["Content-Type" := "application/json"]>
                (<["Authorization" := "Bearer " +:+ template (opt_apiKey opts)]> ∅) |}
  end.

(** [(typeof p === 'string' ? p : (p as any).text ?? '')]. *)
Definition part_text_of (p : PartItem) : string :=
  match p with
  | PartString s => s
  | PartObject o => default EmptyString (text o)
  end.

Definition partsToText (ps : list PartItem) : string :=
  join nl (filter (fun s => nonempty s = true) (map part_text_of ps)).

Definition convertContentsToOpenAIMessages (contents : list Content) :
    list ChatMessage :=
  map (fun c =>
         {| msg_role :=
              match role c with
              | Some r => if String.eqb r "model" then "assistant" else "user"
              | None => "user"
              end;
            msg_content := partsToText (default [] (parts c)) |})
      contents.

(** Tool mapping is left out: the result is [undefined]. *)
Definition convertTools (_tools : option (list Tool)) : option (list Tool) :=
  None.

Definition fromOpenAIChatCompletion (data : json) (model : string) :
    GenerateContentResponse :=
  let text :=
    nullish
      (chain (prop "content")
         (chain (prop "message")
            (chain index0 (chain (prop "choices") (Some data)))))
      (JStr EmptyString) in
  let content :=
    {| cand_role := "model";
       cand_parts := if truthy text then [{| part_text := text |}] else [] |} in
  let usage := chain (prop "usage") (Some data) in
  {| modelVersion := model;
     candidates := [ {| content := content; index := 0 |} ];
     usageMetadata :=
       {| promptTokenCount := chain (prop "prompt_tokens") usage;
          candidatesTokenCount := chain (prop "completion_tokens") usage;
          totalTokenCount := chain (prop "total_tokens") usage |} |}.

(** The request [generateContent] builds. *)
Definition chat_request (self : OpenAICompatibleContentGenerator)
    (req : GenerateContentParameters) : HttpRequest :=
  let model := or_else (req_model req) (defaultModel self) in
  let contents := toContents (req_contents req) in
  let messages := convertContentsToOpenAIMessages contents in
  {| url := baseUrl self +:+ "/chat/completions";
     method := "POST";
     req_headers := headers self;
     body :=
       {| body_model := model;
          body_messages := messages;
          body_temperature := req_config req ≫= cfg_temperature;
          body_top_p := req_config req ≫= cfg_topP;
          body_tools := convertTools (req_config req ≫= cfg_tools);
          body_stream := false |} |}.

Definition generateContent (self : OpenAICompatibleContentGenerator)
    (req : GenerateContentParameters) (_userPromptId : string) :
    M GenerateContentResponse :=
  let model := or_else (req_model req) (defaultModel self) in
  let! resp := fetch (chat_request self req) in
  if negb (ok resp) then
    throw (Error ("OpenAI-compatible error " +:+ show_N (status resp) +:+ ": "
                  +:+ body_text resp))
  else
    let! data := resp_json resp in
    ret (fromOpenAIChatCompletion data model).

Definition countTokens (self : OpenAICompatibleContentGenerator) :
    CountTokensResponse :=
  {| totalTokens := 0 |}.

Definition embedContent (self : OpenAICompatibleContentGenerator) :
    EmbedContentResponse :=
  {| embeddings := [] |}.

(** *** The stream *)

(** Where the body of [gen] stands: not started, suspended at its
    [yield], or finished. *)
Inductive GenState := GenStart | GenAtYield | GenCompleted.

(** The object [gen(this)] returns; it closes over [self], [req] and
    [_userPromptId]. *)
Record AsyncGenerator := {
  gen_self : OpenAICompatibleContentGenerator;
  gen_req : GenerateContentParameters;
  gen_userPromptId : string;
  gen_state : GenState;
}.

Inductive IteratorResult :=
| IterValue (value : GenerateContentResponse)
| IterDone.

Definition at_state (g : AsyncGenerator) (s : GenState) : AsyncGenerator :=
  {| gen_self := gen_self g; gen_req := gen_req g;
     gen_userPromptId := gen_userPromptId g; gen_state := s |}.

(** [await g.next()], for the body
    [yield await self.generateContent(req, _userPromptId)]. *)
Definition next (g : AsyncGenerator) (w : World) :
    outcome IteratorResult * AsyncGenerator * World :=
  match gen_state g with
  | GenStart =>
      match generateContent (gen_self g) (gen_req g) (gen_userPromptId g) w with
      | (Ok r, w') => (Ok (IterValue r), at_state g GenAtYield, w')
      | (Throw e, w') => (Throw e, at_state g GenCompleted, w')
      end
  | GenAtYield => (Ok IterDone, at_state g GenCompleted, w)
  | GenCompleted => (Ok IterDone, g, w)
  end.

(** Calling the method starts nothing: the body runs at the first
    [next]. *)
Definition generateContentStream (self : OpenAICompatibleContentGenerator)
    (req : GenerateContentParameters) (_userPromptId : string) :
    AsyncGenerator :=
  {| gen_self := self; gen_req := req;
     gen_userPromptId := _userPromptId; gen_state := GenStart |}.

(** How a stream ended. *)
Inductive Ending := Completes | Fails (e : error).

(** [for await (const x of g) acc.push(x)]: the elements received and
    how the sequence ended, within [fuel] calls of [next]. *)
Fixpoint for_await (fuel : nat) (g : AsyncGenerator) (w : World) :
    option (list GenerateContentResponse * Ending * World) :=
  match fuel with
  | O => None
  | S fuel' =>
      match next g w with
      | (Throw e, _, w') => Some ([], Fails e, w')
      | (Ok IterDone, _, w') => Some ([], Completes, w')
      | (Ok (IterValue r), g', w') =>
          match for_await fuel' g' w' with
          | Some (rs, fin, w'') => Some (r :: rs, fin, w'')
          | None => None
          end
      end
  end.

End OpenAICompatible.

(* ===================================================================== *)
(** ** The resolver and the factory: [contentGenerator.ts]               *)
(* ===================================================================== *)

Module ContentGenerator.

(** The values of [enum AuthType]. *)
Definition LOGIN_WITH_GOOGLE : string := "oauth-personal".
Definition USE_GEMINI : string := "gemini-api-key".
Definition USE_VERTEX_AI : string := "vertex-ai".
Definition CLOUD_SHELL : string := "cloud-shell".
Definition USE_OPENAI : string := "openai".
Definition USE_OPENROUTER : string := "openrouter".
Definition USE_DEEPSEEK : string := "deepseek".
Definition USE_GLM : string := "glm".

Definition known_authTypes : list string :=
  [LOGIN_WITH_GOOGLE; USE_GEMINI; USE_VERTEX_AI; CLOUD_SHELL;
   USE_OPENAI; USE_OPENROUTER; USE_DEEPSEEK; USE_GLM].

(** The selectors served by the OpenAI-compatible adapter. *)
Definition openai_compatible_authTypes : list string :=
  [USE_OPENAI; USE_OPENROUTER; USE_DEEPSEEK; USE_GLM].

(** [config.authType === x]; at run time the field holds a string of
    the enum, any other string, or [undefined]. *)
Definition is_auth (a : option string) (x : string) : bool :=
  match a with
  | Some s => String.eqb s x
  | None => false
  end.

(** What the two functions read of the process. *)
Record Process := {
  env : gmap string string;
  version : string;
  platform : string;
  arch : string;
}.

(** What they call of [Config]. *)
Record Config := {
  getModel : string;
  getProxy : option string;
}.

Record ContentGeneratorConfig := {
  model : string;
  apiKey : option string;
  vertexai : option bool;
  authType : option string;
  proxy : option string;
  baseUrl : option string;
  provider : option string;
}.

(** A call [getEffectiveModel(apiKey, model, proxy)]; the resolver does
    not use its result. *)
Record ModelCheck := {
  check_apiKey : string;
  check_model : string;
  check_proxy : option string;
}.

Record Resolution := {
  resolved : ContentGeneratorConfig;
  model_checks : list ModelCheck;
}.

Definition plain (c : ContentGeneratorConfig) : Resolution :=
  {| resolved := c; model_checks := [] |}.

Section Resolver.

(** [DEFAULT_GEMINI_MODEL] of [config/models.js]. *)
Variable DEFAULT_GEMINI_MODEL : string.

Definition createContentGeneratorConfig (proc : Process) (config : Config)
    (authType : option string) : Resolution :=
  let geminiApiKey := or_undefined (env proc !! "GEMINI_API_KEY") in
  let googleApiKey := or_undefined (env proc !! "GOOGLE_API_KEY") in
  let googleCloudProject := or_undefined (env proc !! "GOOGLE_CLOUD_PROJECT") in
  let googleCloudLocation := or_undefined (env proc !! "GOOGLE_CLOUD_LOCATION") in
  let openaiApiKey := or_undefined (env proc !! "OPENAI_API_KEY") in
  let openrouterApiKey := or_undefined (env proc !! "OPENROUTER_API_KEY") in
  let deepseekApiKey := or_undefined (env proc !! "DEEPSEEK_API_KEY") in
  let glmApiKey :=
    or_chain (env proc !! "GLM_API_KEY") (env proc !! "ZHIPUAI_API_KEY") in
  let openaiBaseUrl :=
    or_else (env proc !! "OPENAI_BASE_URL") "https://api.openai.com/v1" in
  let openrouterBaseUrl :=
    or_else (env proc !! "OPENROUTER_BASE_URL") "https://openrouter.ai/api/v1" in
  let deepseekBaseUrl :=
    or_else (env proc !! "DEEPSEEK_BASE_URL") "https://api.deepseek.com" in
  let glmBaseUrl :=
    or_else (env proc !! "GLM_BASE_URL") "https://open.bigmodel.cn/api/paas/v4" in
  let effectiveModel := or_else (Some (getModel config)) DEFAULT_GEMINI_MODEL in
  let contentGeneratorConfig :=
    {| model := effectiveModel; apiKey := None; vertexai := None;
       authType := authType; proxy := getProxy config;
       baseUrl := None; provider := None |} in
  let for_provider (key base name : string) :=
    plain {| model := effectiveModel; apiKey := Some key; vertexai := None;
             authType := authType; proxy := getProxy config;
             baseUrl := Some base; provider := Some name |} in
  if is_auth authType LOGIN_WITH_GOOGLE || is_auth authType CLOUD_SHELL then
    plain contentGeneratorConfig
  else
  match is_auth authType USE_GEMINI, geminiApiKey with
  | true, Some key =>
      {| resolved :=
           {| model := effectiveModel; apiKey := Some key;
              vertexai := Some false; authType := authType;
              proxy := getProxy config; baseUrl := None; provider := None |};
         model_checks :=
           [ {| check_apiKey := key; check_model := effectiveModel;
                check_proxy := getProxy config |} ] |}
  | _, _ =>
  if is_auth authType USE_VERTEX_AI &&
     (bool_decide (is_Some googleApiKey) ||
      (bool_decide (is_Some googleCloudProject) &&
       bool_decide (is_Some googleCloudLocation)))
  then
    plain {| model := effectiveModel; apiKey := googleApiKey;
             vertexai := Some true; authType := authType;
             proxy := getProxy config; baseUrl := None; provider := None |}
  else
  match is_auth authType USE_OPENAI, openaiApiKey with
  | true, Some key => for_provider key openaiBaseUrl "openai"
  | _, _ =>
  match is_auth authType USE_OPENROUTER, openrouterApiKey with
  | true, Some key => for_provider key openrouterBaseUrl "openrouter"
  | _, _ =>
  match is_auth authType USE_DEEPSEEK, deepseekApiKey with
  | true, Some key => for_provider key deepseekBaseUrl "deepseek"
  | _, _ =>
  match is_auth authType USE_GLM, glmApiKey with
  | true, Some key => for_provider key glmBaseUrl "glm"
  | _, _ => plain contentGeneratorConfig
  end end end end end.

End Resolver.

(** [httpOptions]. *)
Record HttpOptions := { http_headers : gmap string string }.

(** The three kinds of backend the factory builds.  The first two are
    built by imported collaborators ([createCodeAssistContentGenerator],
    [new GoogleGenAI(...).models]): each is the record of the arguments
    it is built from. *)
Inductive Backend :=
| CodeAssistBackend (httpOptions : HttpOptions) (authType : string)
    (gcConfig : Config) (sessionId : option string)
| GoogleGenAIModels (apiKey : option string) (vertexai : option bool)
    (httpOptions : HttpOptions)
| OpenAICompatibleBackend
    (provider : OpenAICompatible.OpenAICompatibleContentGenerator).

(** The decorator, holding what it wraps. *)
Inductive ContentGenerator :=
| LoggingContentGenerator (wrapped : Backend) (gcConfig : Config).

Definition createContentGenerator (proc : Process)
    (config : ContentGeneratorConfig) (gcConfig : Config)
    (sessionId : option string) : outcome ContentGenerator :=
  let version := or_else (env proc !! "CLI_VERSION") (version proc) in
  let httpOptions :=
    {| http_headers :=
         {[ "User-Agent" :=
              "GeminiCLI/" +:+ version +:+ " (" +:+ platform proc +:+ "; "
              +:+ arch proc +:+ ")" ]} |} in
  if is_auth (authType config) LOGIN_WITH_GOOGLE ||
     is_auth (authType config) CLOUD_SHELL
  then
    Ok (LoggingContentGenerator
          (CodeAssistBackend httpOptions (template (authType config))
             gcConfig sessionId)
          gcConfig)
  else if is_auth (authType config) USE_GEMINI ||
          is_auth (authType config) USE_VERTEX_AI
  then
    Ok (LoggingContentGenerator
          (GoogleGenAIModels
             (match apiKey config with
              | Some EmptyString => None
              | k => k
              end)
             (vertexai config) httpOptions)
          gcConfig)
  else if is_auth (authType config) USE_OPENAI ||
          is_auth (authType config) USE_OPENROUTER ||
          is_auth (authType config) USE_DEEPSEEK ||
          is_auth (authType config) USE_GLM
  then
    match OpenAICompatible.new
            {| OpenAICompatible.opt_baseUrl := baseUrl config;
               OpenAICompatible.opt_apiKey := apiKey config;
               OpenAICompatible.opt_model := model config;
               OpenAICompatible.opt_httpHeaders := Some (http_headers httpOptions) |}
    with
    | Ok provider => Ok (LoggingContentGenerator (OpenAICompatibleBackend provider) gcConfig)
    | Throw e => Throw e
    end
  else
    Throw (Error ("Error creating contentGenerator: Unsupported authType: "
                  +:+ template (authType config))).

End ContentGenerator.

(* ===================================================================== *)
(** ** The specification's own wording                                   *)
(* ===================================================================== *)

Module Spec.

Import OpenAICompatible.

(** "each part's text on its own line": a text is added to what has been
    written so far after a line break, or starts the content. *)
Definition add_line (written t : string) : string :=
  if nonempty written then written +:+ nl +:+ t else t.

(** "skipping parts with no extractable text; parts with no text
    contribute nothing (not even an empty line)". *)
Definition message_text (ps : list PartItem) : string :=
  fold_left
    (fun written p =>
       if nonempty (part_text_of p) then add_line written (part_text_of p)
       else written)
    ps EmptyString.

(** The texts of the parts that bear text, in their order. *)
Definition lines (ps : list PartItem) : list string :=
  filter (fun s => nonempty s = true) (map part_text_of ps).

(** The value [v] is an object that has a field [k]. *)
Definition has_field (k : string) (v : json) : Prop :=
  exists fields x, v = JObj fields /\ In (k, x) fields.

(** The first choice's message content, where the wire response has
    one. *)
Definition first_choice_content (data : json) : option json :=
  chain (prop "content")
    (chain (prop "message")
       (chain index0 (chain (prop "choices") (Some data)))).

(** "the generic default configuration": model, authType and proxy,
    and no provider, no baseUrl and no apiKey. *)
Definition default_config (DEFAULT_GEMINI_MODEL : string)
    (config : ContentGenerator.Config) (authType : option string) :
    ContentGenerator.ContentGeneratorConfig :=
  {| ContentGenerator.model :=
       or_else (Some (ContentGenerator.getModel config)) DEFAULT_GEMINI_MODEL;
     ContentGenerator.apiKey := None;
     ContentGenerator.vertexai := None;
     ContentGenerator.authType := authType;
     ContentGenerator.proxy := ContentGenerator.getProxy config;
     ContentGenerator.baseUrl := None;
     ContentGenerator.provider := None |}.

(** The configuration for a provider: the default one with the key,
    the base URL and the provider's name. *)
Definition provider_config (DEFAULT_GEMINI_MODEL : string)
    (config : ContentGenerator.Config) (a key base name : string) :
    ContentGenerator.ContentGeneratorConfig :=
  {| ContentGenerator.model :=
       or_else (Some (ContentGenerator.getModel config)) DEFAULT_GEMINI_MODEL;
     ContentGenerator.apiKey := Some key;
     ContentGenerator.vertexai := None;
     ContentGenerator.authType := Some a;
     ContentGenerator.proxy := ContentGenerator.getProxy config;
     ContentGenerator.baseUrl := Some base;
     ContentGenerator.provider := Some name |}.

(** The environment variables read for the API key of a selector. *)
Definition credential_vars (a : string) : list string :=
  if String.eqb a ContentGenerator.USE_OPENAI then ["OPENAI_API_KEY"]
  else if String.eqb a ContentGenerator.USE_OPENROUTER then ["OPENROUTER_API_KEY"]
  else if String.eqb a ContentGenerator.USE_DEEPSEEK then ["DEEPSEEK_API_KEY"]
  else if String.eqb a ContentGenerator.USE_GLM
       then ["GLM_API_KEY"; "ZHIPUAI_API_KEY"]
  else [].

(** The selector [a] is selectable: resolution with it gives a
    configuration for a provider. *)
Definition selectable (DEFAULT_GEMINI_MODEL : string)
    (proc : ContentGenerator.Process) (config : ContentGenerator.Config)
    (a : string) : Prop :=
  is_Some
    (ContentGenerator.provider
       (ContentGenerator.resolved
          (ContentGenerator.createContentGeneratorConfig DEFAULT_GEMINI_MODEL
             proc config (Some a)))).

(** The variable [n] is accepted as the credential of the selector [a]:
    whenever [n] is set to a non-empty value, [a] is selectable. *)
Definition accepts (DEFAULT_GEMINI_MODEL : string) (a n : string) : Prop :=
  forall (proc : ContentGenerator.Process) (config : ContentGenerator.Config)
         (v : string),
    ContentGenerator.env proc !! n = Some v ->
    v <> EmptyString ->
    selectable DEFAULT_GEMINI_MODEL proc config a.

(** The wire response is an object whose [choices] is an array that
    starts with an object, whose [message] is an object with the
    [content] [v]. *)
Definition first_choice_is (data v : json) : Prop :=
  exists fields choice rest msg,
    data = JObj fields /\
    assoc "choices" fields = Some (JArr (JObj choice :: rest)) /\
    assoc "message" choice = Some (JObj msg) /\
    assoc "content" msg = Some v.

(** [n] calls of [g.next()], one after the other: the results, oldest
    first, the generator and the world after them. *)
Fixpoint pull (n : nat) (g : AsyncGenerator) (w : World) :
    list (outcome IteratorResult) * AsyncGenerator * World :=
  match n with
  | O => ([], g, w)
  | S n' =>
      match next g w with
      | (r, g', w') =>
          match pull n' g' w' with
          | (rs, g'', w'') => (r :: rs, g'', w'')
          end
      end
  end.

(** The variable that overrides the base URL of a selector, and the
    base URL used without it. *)
Definition base_url_var (a : string) : string :=
  if String.eqb a ContentGenerator.USE_OPENAI then "OPENAI_BASE_URL"
  else if String.eqb a ContentGenerator.USE_OPENROUTER then "OPENROUTER_BASE_URL"
  else if String.eqb a ContentGenerator.USE_DEEPSEEK then "DEEPSEEK_BASE_URL"
  else "GLM_BASE_URL".

Definition default_base_url (a : string) : string :=
  if String.eqb a ContentGenerator.USE_OPENAI then "https://api.openai.com/v1"
  else if String.eqb a ContentGenerator.USE_OPENROUTER
       then "https://openrouter.ai/api/v1"
  else if String.eqb a ContentGenerator.USE_DEEPSEEK then "https://api.deepseek.com"
  else "https://open.bigmodel.cn/api/paas/v4".

(** The key read for a selector: the first of its variables that is
    set to a non-empty value. *)
Definition credential (proc : ContentGenerator.Process) (a : string) :
    option string :=
  match credential_vars a with
  | [] => None
  | [k] => or_undefined (ContentGenerator.env proc !! k)
  | k1 :: k2 :: _ =>
      or_chain (ContentGenerator.env proc !! k1) (ContentGenerator.env proc !! k2)
  end.

(** The configuration for the selector [gemini-api-key] with its key,
    and the one for [vertex-ai] with the key it may have. *)
Definition gemini_config (DEFAULT_GEMINI_MODEL : string)
    (config : ContentGenerator.Config) (key : string) :
    ContentGenerator.ContentGeneratorConfig :=
  {| ContentGenerator.model :=
       or_else (Some (ContentGenerator.getModel config)) DEFAULT_GEMINI_MODEL;
     ContentGenerator.apiKey := Some key;
     ContentGenerator.vertexai := Some false;
     ContentGenerator.authType := Some ContentGenerator.USE_GEMINI;
     ContentGenerator.proxy := ContentGenerator.getProxy config;
     ContentGenerator.baseUrl := None;
     ContentGenerator.provider := None |}.

Definition vertex_config (DEFAULT_GEMINI_MODEL : string)
    (config : ContentGenerator.Config) (key : option string) :
    ContentGenerator.ContentGeneratorConfig :=
  {| ContentGenerator.model :=
       or_else (Some (ContentGenerator.getModel config)) DEFAULT_GEMINI_MODEL;
     ContentGenerator.apiKey := key;
     ContentGenerator.vertexai := Some true;
     ContentGenerator.authType := Some ContentGenerator.USE_VERTEX_AI;
     ContentGenerator.proxy := ContentGenerator.getProxy config;
     ContentGenerator.baseUrl := None;
     ContentGenerator.provider := None |}.

(** The client's identification: [CLI_VERSION] when it is set to a
    non-empty value, the version of the run time otherwise, then the
    platform and the architecture. *)
Definition user_agent (proc : ContentGenerator.Process) : string :=
  "GeminiCLI/"
  +:+ (match ContentGenerator.env proc !! "CLI_VERSION" with
       | Some v => if nonempty v then v else ContentGenerator.version proc
       | None => ContentGenerator.version proc
       end)
  +:+ " (" +:+ ContentGenerator.platform proc +:+ "; "
  +:+ ContentGenerator.arch proc +:+ ")".

End Spec.

(* ===================================================================== *)
(** ** Concrete inputs                                                    *)
(* ===================================================================== *)

Module Samples.

Import OpenAICompatible.

Definition sample_contents : list Content :=
  [ {| role := Some "model"; parts := Some [PartString "hello"] |};
    {| role := Some "system"; parts := None |};
    {| role := None; parts := Some [] |} ].

(** A request whose [model] is the empty string. *)
Definition sample_request : GenerateContentParameters :=
  {| req_model := Some EmptyString;
     req_contents := ManyContents sample_contents;
     req_config := None |}.

Definition sample_adapter : OpenAICompatibleContentGenerator :=
  {| baseUrl := "https://api.example.com/v1";
     apiKey := Some "sk-test";
     defaultModel := "gpt-4o-mini";
     headers := {[ "Content-Type" := "application/json" ]} |}.

(** A network that answers every request with the given response. *)
Definition always (r : Response) : World :=
  {| network := fun _ _ => Ok r; sent := [] |}.

Definition response_401 : Response :=
  {| status := 401; body_text := "invalid key"; body_json := None |}.

(** A success without [choices] and with a [usage] that lacks two of
    its fields. *)
Definition data_no_choices : json :=
  JObj [ ("id", JStr "cmpl-1");
         ("usage", JObj [ ("prompt_tokens", JNum 7) ]) ].

Definition response_no_choices : Response :=
  {| status := 200; body_text := "{...}"; body_json := Some data_no_choices |}.

Definition data_hello : json :=
  JObj [ ("choices",
          JArr [ JObj [ ("message", JObj [ ("content", JStr "hello") ]) ] ]) ].

Definition response_hello : Response :=
  {| status := 200; body_text := "{...}"; body_json := Some data_hello |}.

Definition sample_process : ContentGenerator.Process :=
  {| ContentGenerator.env := ∅;
     ContentGenerator.version := "v20.11.0";
     ContentGenerator.platform := "linux";
     ContentGenerator.arch := "x64" |}.

(** A process in which only the variable [n] is set. *)
Definition process_with (n v : string) : ContentGenerator.Process :=
  {| ContentGenerator.env := {[ n := v ]};
     ContentGenerator.version := "v20.11.0";
     ContentGenerator.platform := "linux";
     ContentGenerator.arch := "x64" |}.

Definition sample_config : ContentGenerator.Config :=
  {| ContentGenerator.getModel := "gpt-4o-mini";
     ContentGenerator.getProxy := None |}.

(** What the resolver returns for the selector [openai] when no key is
    set. *)
Definition config_openai_without_key : ContentGenerator.ContentGeneratorConfig :=
  {| ContentGenerator.model := "gpt-4o-mini";
     ContentGenerator.apiKey := None;
     ContentGenerator.vertexai := None;
     ContentGenerator.authType := Some ContentGenerator.USE_OPENAI;
     ContentGenerator.proxy := None;
     ContentGenerator.baseUrl := None;
     ContentGenerator.provider := None |}.

(** The options the factory passes: a key, and the client's
    identification as the only additional header. *)
Definition sample_options : OpenAICompatibleOptions :=
  {| opt_baseUrl := Some "https://openrouter.ai/api/v1/";
     opt_apiKey := Some "sk-or-1";
     opt_model := "gpt-4o-mini";
     opt_httpHeaders := Some {[ "User-Agent" := "GeminiCLI/1.0 (linux; x64)" ]} |}.

(** A network on which [fetch] itself fails. *)
Definition offline : World :=
  {| network := fun _ _ => Throw (TypeError "fetch failed"); sent := [] |}.

(** A success whose body is not JSON. *)
Definition response_html : Response :=
  {| status := 200; body_text := "<html>"; body_json := None |}.

(** A request that names its model. *)
Definition request_with_model : GenerateContentParameters :=
  {| req_model := Some "deepseek-chat";
     req_contents := ManyContents sample_contents;
     req_config := None |}.

(** A complete answer whose usage counts a prompt of no token. *)
Definition data_usage : json :=
  JObj [ ("choices",
          JArr [ JObj [ ("message", JObj [ ("content", JStr "hi") ]) ] ]);
         ("usage",
          JObj [ ("prompt_tokens", JNum 0); ("completion_tokens", JNum 1);
                 ("total_tokens", JNum 1) ]) ].

(** A process with every key of every selector set, and a base URL
    of its own for DeepSeek. *)
Definition process_with_all : ContentGenerator.Process :=
  {| ContentGenerator.env :=
       list_to_map
         [ ("GEMINI_API_KEY", "g-key"); ("GOOGLE_API_KEY", "v-key");
           ("OPENAI_API_KEY", "o-key"); ("OPENROUTER_API_KEY", "r-key");
           ("DEEPSEEK_API_KEY", "d-key"); ("GLM_API_KEY", "z-key");
           ("ZHIPUAI_API_KEY", "alias-key");
           ("DEEPSEEK_BASE_URL", "https://proxy.example.com/deepseek/") ];
     ContentGenerator.version := "v20.11.0";
     ContentGenerator.platform := "linux";
     ContentGenerator.arch := "x64" |}.

(** A process in which the key of GLM is set to the empty string and
    its alias to a key; and one with a cloud project and location and
    no key. *)
Definition process_alias_only : ContentGenerator.Process :=
  {| ContentGenerator.env :=
       list_to_map [ ("GLM_API_KEY", EmptyString); ("ZHIPUAI_API_KEY", "alias-key") ];
     ContentGenerator.version := "v20.11.0";
     ContentGenerator.platform := "linux";
     ContentGenerator.arch := "x64" |}.

Definition process_cloud_project : ContentGenerator.Process :=
  {| ContentGenerator.env :=
       list_to_map [ ("GOOGLE_CLOUD_PROJECT", "my-project");
                     ("GOOGLE_CLOUD_LOCATION", "us-central1") ];
     ContentGenerator.version := "v20.11.0";
     ContentGenerator.platform := "linux";
     ContentGenerator.arch := "x64" |}.

(** A process in which the key of OpenAI is set to the empty string. *)
Definition process_empty_key : ContentGenerator.Process :=
  {| ContentGenerator.env := {[ "OPENAI_API_KEY" := EmptyString ]};
     ContentGenerator.version := "v20.11.0";
     ContentGenerator.platform := "linux";
     ContentGenerator.arch := "x64" |}.

(** A process that announces the version of the client. *)
Definition process_versioned : ContentGenerator.Process :=
  {| ContentGenerator.env :=
       list_to_map [ ("CLI_VERSION", "0.1.18"); ("OPENROUTER_API_KEY", "r-key") ];
     ContentGenerator.version := "v20.11.0";
     ContentGenerator.platform := "darwin";
     ContentGenerator.arch := "arm64" |}.

(** A configuration for Gemini whose key is the empty string. *)
Definition config_gemini_empty_key : ContentGenerator.ContentGeneratorConfig :=
  {| ContentGenerator.model := "gemini-2.5-pro";
     ContentGenerator.apiKey := Some EmptyString;
     ContentGenerator.vertexai := Some false;
     ContentGenerator.authType := Some ContentGenerator.USE_GEMINI;
     ContentGenerator.proxy := None;
     ContentGenerator.baseUrl := None;
     ContentGenerator.provider := None |}.

(** A configuration whose selector is not of the enumeration. *)
Definition config_unknown_selector : ContentGenerator.ContentGeneratorConfig :=
  {| ContentGenerator.model := "claude";
     ContentGenerator.apiKey := Some "k";
     ContentGenerator.vertexai := None;
     ContentGenerator.authType := Some "anthropic";
     ContentGenerator.proxy := None;
     ContentGenerator.baseUrl := Some "https://api.example.com";
     ContentGenerator.provider := None |}.

End Samples.

(* ===================================================================== *)
(** ** Strings                                                            *)
(* ===================================================================== *)

Section StringFacts.

Lemma append_assoc (a b c : string) : (a +:+ b) +:+ c = a +:+ (b +:+ c).
Proof.
  induction a as [|ch a IH]; [reflexivity |].
  change (String ch ((a +:+ b) +:+ c) = String ch (a +:+ (b +:+ c))).
  now f_equal.
Qed.

Lemma append_empty_r (a : string) : a +:+ EmptyString = a.
Proof.
  induction a as [|ch a IH]; [reflexivity |].
  change (String ch (a +:+ EmptyString) = String ch a).
  now f_equal.
Qed.

Lemma nonempty_append_l (a b : string) :
  nonempty a = true -> nonempty (a +:+ b) = true.
Proof. destruct a; simpl; [discriminate | reflexivity]. Qed.

Lemma occurs_in_middle (pre s post : string) :
  occurs_in s (pre +:+ s +:+ post).
Proof. exists pre, post; reflexivity. Qed.

Lemma occurs_in_end (pre s : string) : occurs_in s (pre +:+ s).
Proof. exists pre, EmptyString. now rewrite append_empty_r. Qed.

Lemma strip_trailing_slash_snoc (u : string) :
  strip_trailing_slash (u +:+ "/") = u.
Proof.
  induction u as [|c u IH]; [reflexivity |].
  change (String c u +:+ "/") with (String c (u +:+ "/")).
  simpl. rewrite IH.
  destruct u; reflexivity.
Qed.

Lemma strip_trailing_slash_id (u : string) :
  ends_with_slash u = false -> strip_trailing_slash u = u.
Proof.
  induction u as [|c u IH]; [reflexivity |].
  simpl. destruct u as [|d u].
  - intros ->. reflexivity.
  - intros H. now rewrite (IH H).
Qed.

Lemma join_cons_cons (sep x y : string) (l : list string) :
  join sep (x :: y :: l) = x +:+ sep +:+ join sep (y :: l).
Proof. reflexivity. Qed.

Lemma join_nonempty (sep x : string) (l : list string) :
  nonempty x = true -> nonempty (join sep (x :: l)) = true.
Proof.
  intros Hx. destruct l as [|y l]; [exact Hx |].
  rewrite join_cons_cons. now apply nonempty_append_l.
Qed.

(** Joining a list extended at its end. *)
Lemma join_snoc (sep x y : string) (l : list string) :
  join sep ((x :: l) ++ [y]) = join sep (x :: l) +:+ sep +:+ y.
Proof.
  revert x. induction l as [|z l IH]; intros x.
  - reflexivity.
  - change ((x :: z :: l) ++ [y]) with (x :: ((z :: l) ++ [y])).
    destruct ((z :: l) ++ [y]) as [|h t] eqn:E; [discriminate |].
    rewrite join_cons_cons, <- E, IH, join_cons_cons.
    now rewrite !append_assoc.
Qed.

End StringFacts.

(* ===================================================================== *)
(** ** The adapter's translation of requests                              *)
(* ===================================================================== *)

Section MessageTranslation.

Import OpenAICompatible Spec Samples.

Lemma partsToText_lines (ps : list PartItem) :
  partsToText ps = join nl (lines ps).
Proof. reflexivity. Qed.

Lemma lines_cons (p : PartItem) (ps : list PartItem) :
  lines (p :: ps) =
  if nonempty (part_text_of p) then part_text_of p :: lines ps else lines ps.
Proof.
  unfold lines. simpl. rewrite filter_cons.
  destruct (nonempty (part_text_of p)) eqn:E.
  - destruct (decide (true = true)); [reflexivity | congruence].
  - destruct (decide (false = true)); [discriminate | reflexivity].
Qed.

Lemma lines_app (ps qs : list PartItem) : lines (ps ++ qs) = lines ps ++ lines qs.
Proof. unfold lines. now rewrite map_app, filter_app. Qed.

Lemma add_line_join (pre : list string) (t : string) :
  Forall (fun s => nonempty s = true) pre ->
  Spec.add_line (join nl pre) t = join nl (pre ++ [t]).
Proof.
  intros Hpre. unfold Spec.add_line.
  destruct pre as [|x l]; [reflexivity |].
  inversion Hpre as [|? ? Hx Hl]; subst.
  rewrite (join_nonempty nl x l Hx).
  symmetry. apply join_snoc.
Qed.

(** The left-to-right writing of the lines reaches the joined text,
    whatever has been written before. *)
Lemma message_text_from (ps : list PartItem) :
  forall pre : list string,
    Forall (fun s => nonempty s = true) pre ->
    fold_left
      (fun written p =>
         if nonempty (part_text_of p)
         then Spec.add_line written (part_text_of p)
         else written)
      ps (join nl pre)
    = join nl (pre ++ lines ps).
Proof.
  induction ps as [|p ps IH]; intros pre Hpre.
  - simpl. now rewrite app_nil_r.
  - simpl fold_left. rewrite lines_cons.
    destruct (nonempty (part_text_of p)) eqn:E.
    + rewrite add_line_join by assumption.
      rewrite IH.
      * now rewrite <- app_assoc.
      * apply Forall_app. split; [assumption |].
        constructor; [assumption | constructor].
    + now apply IH.
Qed.

Lemma partsToText_message_text (ps : list PartItem) :
  partsToText ps = Spec.message_text ps.
Proof.
  unfold Spec.message_text.
  change EmptyString with (join nl []).
  rewrite message_text_from by constructor.
  reflexivity.
Qed.

(** A part without text leaves the lines as they are. *)
Lemma lines_skip (ps qs : list PartItem) (p : PartItem) :
  nonempty (part_text_of p) = false ->
  lines (ps ++ p :: qs) = lines (ps ++ qs).
Proof.
  intros E. rewrite !lines_app, lines_cons, E. reflexivity.
Qed.

(** C3. The content of a wire message is the texts of the parts that
    bear text, in their order, each on its own line: it is what the
    specification's line-by-line writing gives and the newline-join of
    the non-empty texts; a part whose text is empty or absent, wherever
    it stands, adds nothing, not even an empty line; and the parts
    with the texts [a], empty and [b] give [a], a line feed and [b]. *)
Theorem C3_message_content :
  (forall ps : list PartItem,
      partsToText ps = Spec.message_text ps /\
      partsToText ps =
        join nl (filter (fun s => nonempty s = true) (map part_text_of ps))) /\
  (forall (ps qs : list PartItem) (media : option string),
      partsToText (ps ++ PartObject {| text := None; inlineData := media |} :: qs)
        = partsToText (ps ++ qs) /\
      partsToText (ps ++ PartObject {| text := Some EmptyString; inlineData := media |} :: qs)
        = partsToText (ps ++ qs) /\
      partsToText (ps ++ PartString EmptyString :: qs) = partsToText (ps ++ qs)) /\
  (forall c : Content,
      map msg_content (convertContentsToOpenAIMessages [c])
        = [Spec.message_text (default [] (parts c))]) /\
  partsToText
    [ PartObject {| text := Some "a"; inlineData := None |};
      PartObject {| text := Some EmptyString; inlineData := None |};
      PartObject {| text := Some "b"; inlineData := None |} ]
    = "a" +:+ nl +:+ "b".
Proof.
  repeat split.
  - apply partsToText_message_text.
  - rewrite !partsToText_lines. f_equal. now apply lines_skip.
  - rewrite !partsToText_lines. f_equal. now apply lines_skip.
  - rewrite !partsToText_lines. f_equal. now apply lines_skip.
  - intros c. simpl. now rewrite partsToText_message_text.
Qed.

(** The message at a position is the translation of the content at
    that position, and the two lists have one length. *)
Lemma convert_lookup (contents : list Content) (i : nat) (c : Content) :
  contents !! i = Some c ->
  exists m, convertContentsToOpenAIMessages contents !! i = Some m /\
            convertContentsToOpenAIMessages [c] = [m].
Proof.
  revert i. induction contents as [|c0 cs IH]; intros i H.
  - discriminate.
  - destruct i as [|i].
    + injection H as ->. eexists. split; reflexivity.
    + apply (IH i H).
Qed.

Lemma convert_length (contents : list Content) :
  length (convertContentsToOpenAIMessages contents) = length contents.
Proof. unfold convertContentsToOpenAIMessages. apply length_map. Qed.

(** C2. Each content becomes one wire message, at its position; its
    role is ["assistant"] when the content's role is ["model"], and
    ["user"] for every other role, an unrecognised one and an absent one
    included. *)
Theorem C2_role_mapping (contents : list Content) (i : nat) (c : Content) :
  contents !! i = Some c ->
  length (convertContentsToOpenAIMessages contents) = length contents /\
  exists m,
    convertContentsToOpenAIMessages contents !! i = Some m /\
    (role c = Some "model" -> msg_role m = "assistant") /\
    (role c <> Some "model" -> msg_role m = "user").
Proof.
  intros H. split; [apply convert_length |].
  destruct (convert_lookup contents i c H) as (m & Hm & Hc).
  exists m. split; [exact Hm |].
  injection Hc as <-. simpl.
  destruct (role c) as [r|]; [| split; [discriminate | reflexivity]].
  destruct (String.eqb r "model") eqn:E; split; intros Hr;
    try reflexivity.
  - apply String.eqb_eq in E. congruence.
  - apply String.eqb_neq in E. congruence.
Qed.

Lemma C2_role_mapping_witness :
  length (convertContentsToOpenAIMessages sample_contents) = 3 /\
  exists m,
    convertContentsToOpenAIMessages sample_contents !! 1 = Some m /\
    (Some "system" = Some "model" -> msg_role m = "assistant") /\
    (Some "system" <> Some "model" -> msg_role m = "user").
Proof.
  apply (C2_role_mapping sample_contents 1
           {| role := Some "system"; parts := None |}).
  reflexivity.
Defined.

End MessageTranslation.

(* ===================================================================== *)
(** ** The adapter's calls                                                *)
(* ===================================================================== *)

Section Calls.

Import OpenAICompatible Spec Samples.

(** What [generateContent] does, case by case: it sends one request and
    its result is decided by the answer to that request. *)
Lemma generateContent_run (self : OpenAICompatibleContentGenerator)
    (req : GenerateContentParameters) (id : string) (w : World) :
  generateContent self req id w =
  (match network w (sent w) (chat_request self req) with
   | Throw e => Throw e
   | Ok resp =>
       if ok resp then
         match body_json resp with
         | Some data =>
             Ok (fromOpenAIChatCompletion data
                   (or_else (req_model req) (defaultModel self)))
         | None => Throw (SyntaxError "Unexpected token in JSON")
         end
       else
         Throw (Error ("OpenAI-compatible error " +:+ show_N (status resp)
                       +:+ ": " +:+ body_text resp))
   end,
   after w (chat_request self req)).
Proof.
  unfold generateContent, bind, fetch, after. simpl.
  destruct (network w (sent w) (chat_request self req)) as [resp|e];
    [| reflexivity].
  destruct (ok resp); simpl; [| reflexivity].
  unfold resp_json. destruct (body_json resp); reflexivity.
Qed.

Lemma generateContent_sends_one (self : OpenAICompatibleContentGenerator)
    (req : GenerateContentParameters) (id : string) (w : World) :
  sent (snd (generateContent self req id w)) = sent w ++ [chat_request self req].
Proof. now rewrite generateContent_run. Qed.

(** The stream, pulled to its end: one call of [generateContent],
    whose response is the only element, or whose error ends the stream
    before any element. *)
Lemma stream_run (self : OpenAICompatibleContentGenerator)
    (req : GenerateContentParameters) (id : string) (w : World) (fuel : nat) :
  for_await (S (S fuel)) (generateContentStream self req id) w =
  match generateContent self req id w with
  | (Ok r, w') => Some ([r], Completes, w')
  | (Throw e, w') => Some ([], Fails e, w')
  end.
Proof.
  unfold for_await at 1. unfold next at 1. simpl gen_state. cbv iota.
  simpl gen_self. simpl gen_req. simpl gen_userPromptId.
  destruct (generateContent self req id w) as [[r|e] w']; reflexivity.
Qed.

(** C4. When the wire answers with a status outside 200-299,
    [generateContent] fails with an [Error] whose message contains the
    status code in decimal and the text of the response body, and the
    request has been sent once: nothing is retried. *)
Theorem C4_wire_failure (self : OpenAICompatibleContentGenerator)
    (req : GenerateContentParameters) (id : string) (w : World)
    (resp : Response) :
  network w (sent w) (chat_request self req) = Ok resp ->
  ok resp = false ->
  exists msg,
    generateContent self req id w
      = (Throw (Error msg), after w (chat_request self req)) /\
    occurs_in (show_N (status resp)) msg /\
    occurs_in (body_text resp) msg /\
    sent (after w (chat_request self req)) = sent w ++ [chat_request self req].
Proof.
  intros Hnet Hok. eexists. rewrite generateContent_run, Hnet, Hok.
  split; [reflexivity |]. split; [| split].
  - apply occurs_in_middle.
  - rewrite <- !append_assoc. apply occurs_in_end.
  - reflexivity.
Qed.

Lemma C4_wire_failure_witness :
  exists msg,
    generateContent sample_adapter sample_request "prompt-1" (always response_401)
      = (Throw (Error msg),
         after (always response_401) (chat_request sample_adapter sample_request)) /\
    occurs_in "401" msg /\
    occurs_in "invalid key" msg /\
    sent (after (always response_401) (chat_request sample_adapter sample_request))
      = [chat_request sample_adapter sample_request].
Proof.
  apply (C4_wire_failure sample_adapter sample_request "prompt-1"
           (always response_401) response_401); reflexivity.
Defined.

(** C9. A request whose [model] is the empty string is served with the
    adapter's default model: the one request sent names it in its body,
    and the response to a successful answer names it as
    [modelVersion]. *)
Theorem C9_empty_model_uses_default (self : OpenAICompatibleContentGenerator)
    (req : GenerateContentParameters) (id : string) (w : World) :
  req_model req = Some EmptyString ->
  body_model (body (chat_request self req)) = defaultModel self /\
  sent (snd (generateContent self req id w)) = sent w ++ [chat_request self req] /\
  (forall resp data,
      network w (sent w) (chat_request self req) = Ok resp ->
      ok resp = true ->
      body_json resp = Some data ->
      exists r, fst (generateContent self req id w) = Ok r /\
                modelVersion r = defaultModel self) /\
  (forall r, fst (generateContent self req id w) = Ok r ->
             modelVersion r = defaultModel self).
Proof.
  intros Hm. split; [| split; [| split]].
  - simpl. now rewrite Hm.
  - apply generateContent_sends_one.
  - intros resp data Hnet Hok Hjson.
    rewrite generateContent_run, Hnet, Hok, Hjson, Hm.
    eexists. split; reflexivity.
  - intros r. rewrite generateContent_run, Hm. simpl.
    destruct (network w (sent w) (chat_request self req)) as [resp|e];
      [| discriminate].
    destruct (ok resp); [| discriminate].
    destruct (body_json resp); [| discriminate].
    intros [= <-]. reflexivity.
Qed.

Lemma C9_empty_model_uses_default_witness :
  body_model (body (chat_request sample_adapter sample_request)) = "gpt-4o-mini" /\
  exists r,
    fst (generateContent sample_adapter sample_request "prompt-1"
           (always response_hello)) = Ok r /\
    modelVersion r = "gpt-4o-mini".
Proof.
  destruct (C9_empty_model_uses_default sample_adapter sample_request
              "prompt-1" (always response_hello) eq_refl)
    as (Hbody & _ & Hresp & _).
  split; [exact Hbody |].
  apply (Hresp response_hello data_hello); reflexivity.
Defined.

(** C1 (as the code has it). Pulling the stream to its end performs
    one call of [generateContent], which sends one request. When that
    call returns a response, the stream yields exactly one element,
    that response, and then completes; when that call fails, the stream
    yields no element and fails with the same error. *)
Theorem C1_stream_single_element (self : OpenAICompatibleContentGenerator)
    (req : GenerateContentParameters) (id : string) (w : World) (fuel : nat) :
  for_await (S (S fuel)) (generateContentStream self req id) w =
    match generateContent self req id w with
    | (Ok r, w') => Some ([r], Completes, w')
    | (Throw e, w') => Some ([], Fails e, w')
    end /\
  sent (snd (generateContent self req id w)) = sent w ++ [chat_request self req] /\
  match for_await (S (S fuel)) (generateContentStream self req id) w with
  | Some (_, _, w') => sent w' = sent w ++ [chat_request self req]
  | None => False
  end.
Proof.
  split; [apply stream_run |]. split; [apply generateContent_sends_one |].
  rewrite stream_run.
  pose proof (generateContent_sends_one self req id w) as Hs.
  destruct (generateContent self req id w) as [[r|e] w']; exact Hs.
Qed.

(** C1 as stated fails: on a request that the wire answers with status
    401, [generateContent] fails and the stream yields no element,
    however far it is pulled. *)
Lemma C1_stream_counterexample :
  fst (generateContent sample_adapter sample_request "prompt-1"
         (always response_401))
    = Throw (Error "OpenAI-compatible error 401: invalid key") /\
  for_await 2 (generateContentStream sample_adapter sample_request "prompt-1")
    (always response_401)
    = Some ([], Fails (Error "OpenAI-compatible error 401: invalid key"),
            after (always response_401)
              (chat_request sample_adapter sample_request)) /\
  ~ (exists fuel r fin w',
        for_await fuel
          (generateContentStream sample_adapter sample_request "prompt-1")
          (always response_401)
        = Some ([r], fin, w')).
Proof.
  split; [now rewrite generateContent_run |].
  split; [now rewrite stream_run, generateContent_run |].
  intros (fuel & r & fin & w' & H).
  destruct fuel as [|[|fuel]].
  - discriminate.
  - unfold for_await, next in H. simpl gen_state in H. cbv iota in H.
    simpl gen_self in H. simpl gen_req in H. simpl gen_userPromptId in H.
    rewrite generateContent_run in H. discriminate.
  - rewrite stream_run, generateContent_run in H. discriminate.
Qed.

(** C10. The constructor removes one final slash of [baseUrl]: for a
    [U] that does not end in a slash, the options with [U] and those
    with [U + "/"] give the same adapter, every request of which goes to
    [U + "/chat/completions"]; of two final slashes one is left. *)
Theorem C10_trailing_slash (U : string) (key : option string) (model : string)
    (hdrs : option (gmap string string)) :
  ends_with_slash U = false ->
  exists g1 g2 g3,
    new {| opt_baseUrl := Some U; opt_apiKey := key;
           opt_model := model; opt_httpHeaders := hdrs |} = Ok g1 /\
    new {| opt_baseUrl := Some (U +:+ "/"); opt_apiKey := key;
           opt_model := model; opt_httpHeaders := hdrs |} = Ok g2 /\
    new {| opt_baseUrl := Some (U +:+ "//"); opt_apiKey := key;
           opt_model := model; opt_httpHeaders := hdrs |} = Ok g3 /\
    g1 = g2 /\
    baseUrl g3 = U +:+ "/" /\
    forall (req : GenerateContentParameters) (id : string) (w : World),
      url (chat_request g1 req) = U +:+ "/chat/completions" /\
      url (chat_request g2 req) = U +:+ "/chat/completions" /\
      sent (snd (generateContent g1 req id w)) = sent w ++ [chat_request g1 req] /\
      sent (snd (generateContent g2 req id w)) = sent w ++ [chat_request g2 req].
Proof.
  intros HU. unfold new. simpl.
  rewrite (strip_trailing_slash_id U HU), strip_trailing_slash_snoc.
  replace (U +:+ "//") with ((U +:+ "/") +:+ "/") by now rewrite append_assoc.
  rewrite strip_trailing_slash_snoc.
  do 3 eexists. do 5 (split; [reflexivity |]).
  intros req id w.
  split; [reflexivity |]. split; [reflexivity |].
  split; apply generateContent_sends_one.
Qed.

Lemma C10_trailing_slash_witness :
  exists g1 g2,
    new {| opt_baseUrl := Some "https://api.deepseek.com"; opt_apiKey := Some "k";
           opt_model := "deepseek-chat"; opt_httpHeaders := None |} = Ok g1 /\
    new {| opt_baseUrl := Some "https://api.deepseek.com/"; opt_apiKey := Some "k";
           opt_model := "deepseek-chat"; opt_httpHeaders := None |} = Ok g2 /\
    url (chat_request g1 sample_request)
      = "https://api.deepseek.com/chat/completions" /\
    url (chat_request g2 sample_request)
      = "https://api.deepseek.com/chat/completions".
Proof.
  destruct (C10_trailing_slash "https://api.deepseek.com" (Some "k")
              "deepseek-chat" None eq_refl)
    as (g1 & g2 & g3 & H1 & H2 & _ & _ & _ & Hreq).
  exists g1, g2. split; [exact H1 |]. split; [exact H2 |].
  destruct (Hreq sample_request EmptyString (always response_hello))
    as (Hu1 & Hu2 & _).
  split; [exact Hu1 | exact Hu2].
Defined.

End Calls.

(* ===================================================================== *)
(** ** The adapter's translation of responses                             *)
(* ===================================================================== *)

Section ResponseTranslation.

Import OpenAICompatible Spec Samples.

Lemma assoc_In (k : string) (fields : list (string * json)) (x : json) :
  assoc k fields = Some x -> In (k, x) fields.
Proof.
  induction fields as [|[k' v] rest IH]; simpl; [discriminate |].
  destruct (String.eqb k k') eqn:E.
  - apply String.eqb_eq in E. intros [= ->]. left. now subst.
  - intros H. right. now apply IH.
Qed.

Lemma prop_without_field (k : string) (v : json) :
  ~ has_field k v -> prop k v = None.
Proof.
  intros Hno. destruct v as [| | | |items|fields]; try reflexivity.
  simpl. destruct (assoc k fields) as [x|] eqn:E; [| reflexivity].
  exfalso. apply Hno. exists fields, x. split; [reflexivity |].
  now apply assoc_In.
Qed.

Lemma chain_prop (k : string) (v : json) :
  chain (prop k) (Some v) = prop k v.
Proof. destruct v; reflexivity. Qed.

(** The candidates are one candidate at index 0, whose parts are the
    text when it is truthy. *)
Lemma candidates_shape (data : json) (model : string) :
  candidates (fromOpenAIChatCompletion data model) =
  [ {| content :=
         {| cand_role := "model";
            cand_parts :=
              let text := nullish (first_choice_content data) (JStr EmptyString) in
              if truthy text then [{| part_text := text |}] else [] |};
       index := 0 |} ].
Proof. reflexivity. Qed.

Lemma usage_shape (data : json) (model : string) :
  usageMetadata (fromOpenAIChatCompletion data model) =
  {| promptTokenCount :=
       chain (prop "prompt_tokens") (chain (prop "usage") (Some data));
     candidatesTokenCount :=
       chain (prop "completion_tokens") (chain (prop "usage") (Some data));
     totalTokenCount :=
       chain (prop "total_tokens") (chain (prop "usage") (Some data)) |}.
Proof. reflexivity. Qed.

(** C5. A wire response without a [choices] field, or whose first
    choice's message content is the empty string, is translated without
    failure: the response has exactly one candidate, at index 0, whose
    content has no part; a usage field that the wire response lacks is
    [undefined] in the response, field by field, not zero; and
    [generateContent] returns that response when the wire answers so with
    a success status. *)
Theorem C5_partial_response (data : json) (model : string) :
  ~ has_field "choices" data \/ first_choice_content data = Some (JStr EmptyString) ->
  candidates (fromOpenAIChatCompletion data model)
    = [ {| content := {| cand_role := "model"; cand_parts := [] |};
           index := 0 |} ] /\
  length (candidates (fromOpenAIChatCompletion data model)) = 1 /\
  (~ has_field "usage" data ->
   usageMetadata (fromOpenAIChatCompletion data model)
     = {| promptTokenCount := None; candidatesTokenCount := None;
          totalTokenCount := None |}) /\
  (forall u, prop "usage" data = Some u ->
     (~ has_field "prompt_tokens" u ->
      promptTokenCount (usageMetadata (fromOpenAIChatCompletion data model)) = None) /\
     (~ has_field "completion_tokens" u ->
      candidatesTokenCount (usageMetadata (fromOpenAIChatCompletion data model)) = None) /\
     (~ has_field "total_tokens" u ->
      totalTokenCount (usageMetadata (fromOpenAIChatCompletion data model)) = None)) /\
  (forall self req id w resp,
     network w (sent w) (chat_request self req) = Ok resp ->
     ok resp = true ->
     body_json resp = Some data ->
     exists r,
       fst (generateContent self req id w) = Ok r /\
       candidates r = [ {| content := {| cand_role := "model"; cand_parts := [] |};
                           index := 0 |} ]).
Proof.
  intros Hdata.
  assert (Hcand : candidates (fromOpenAIChatCompletion data model)
            = [ {| content := {| cand_role := "model"; cand_parts := [] |};
                   index := 0 |} ]).
  { rewrite candidates_shape. destruct Hdata as [Hno | Hempty].
    - unfold first_choice_content.
      rewrite chain_prop, (prop_without_field _ _ Hno). reflexivity.
    - rewrite Hempty. reflexivity. }
  split; [exact Hcand |]. split; [now rewrite Hcand |].
  split; [| split].
  - intros Hno. rewrite usage_shape.
    rewrite chain_prop, (prop_without_field _ _ Hno). reflexivity.
  - intros u Hu. rewrite usage_shape.
    rewrite chain_prop, Hu, !chain_prop.
    cbn [promptTokenCount candidatesTokenCount totalTokenCount].
    repeat split; intros Hno; now apply prop_without_field.
  - intros self req id w resp Hnet Hok Hjson.
    rewrite generateContent_run, Hnet, Hok, Hjson.
    eexists. split; [reflexivity |].
    rewrite candidates_shape. destruct Hdata as [Hno | Hempty].
    + unfold first_choice_content.
      rewrite chain_prop, (prop_without_field _ _ Hno). reflexivity.
    + rewrite Hempty. reflexivity.
Qed.

Lemma C5_partial_response_witness :
  candidates (fromOpenAIChatCompletion data_no_choices "gpt-4o-mini")
    = [ {| content := {| cand_role := "model"; cand_parts := [] |};
           index := 0 |} ] /\
  usageMetadata (fromOpenAIChatCompletion data_no_choices "gpt-4o-mini")
    = {| promptTokenCount := Some (JNum 7); candidatesTokenCount := None;
         totalTokenCount := None |}.
Proof.
  assert (Hno : ~ has_field "choices" data_no_choices).
  { intros (fields & x & Hobj & Hin). injection Hobj as <-.
    simpl in Hin. destruct Hin as [H | [H | []]]; discriminate. }
  destruct (C5_partial_response data_no_choices "gpt-4o-mini" (or_introl Hno))
    as (Hcand & _).
  split; [exact Hcand | reflexivity].
Defined.

End ResponseTranslation.

(* ===================================================================== *)
(** ** The resolver                                                       *)
(* ===================================================================== *)

Section Resolution.

Import ContentGenerator Spec Samples.

Variable DEFAULT_GEMINI_MODEL : string.

Lemma resolve_openai (proc : Process) (config : Config) :
  createContentGeneratorConfig DEFAULT_GEMINI_MODEL proc config (Some USE_OPENAI) =
  match or_undefined (env proc !! "OPENAI_API_KEY") with
  | Some key =>
      plain (provider_config DEFAULT_GEMINI_MODEL config USE_OPENAI key
               (or_else (env proc !! "OPENAI_BASE_URL") "https://api.openai.com/v1")
               "openai")
  | None => plain (default_config DEFAULT_GEMINI_MODEL config (Some USE_OPENAI))
  end.
Proof.
  unfold createContentGeneratorConfig. cbn [is_auth]. simpl String.eqb.
  cbn [orb andb].
  destruct (or_undefined (env proc !! "OPENAI_API_KEY")); reflexivity.
Qed.

Lemma resolve_openrouter (proc : Process) (config : Config) :
  createContentGeneratorConfig DEFAULT_GEMINI_MODEL proc config (Some USE_OPENROUTER) =
  match or_undefined (env proc !! "OPENROUTER_API_KEY") with
  | Some key =>
      plain (provider_config DEFAULT_GEMINI_MODEL config USE_OPENROUTER key
               (or_else (env proc !! "OPENROUTER_BASE_URL")
                  "https://openrouter.ai/api/v1")
               "openrouter")
  | None => plain (default_config DEFAULT_GEMINI_MODEL config (Some USE_OPENROUTER))
  end.
Proof.
  unfold createContentGeneratorConfig. cbn [is_auth]. simpl String.eqb.
  cbn [orb andb].
  destruct (or_undefined (env proc !! "OPENROUTER_API_KEY")); reflexivity.
Qed.

Lemma resolve_deepseek (proc : Process) (config : Config) :
  createContentGeneratorConfig DEFAULT_GEMINI_MODEL proc config (Some USE_DEEPSEEK) =
  match or_undefined (env proc !! "DEEPSEEK_API_KEY") with
  | Some key =>
      plain (provider_config DEFAULT_GEMINI_MODEL config USE_DEEPSEEK key
               (or_else (env proc !! "DEEPSEEK_BASE_URL") "https://api.deepseek.com")
               "deepseek")
  | None => plain (default_config DEFAULT_GEMINI_MODEL config (Some USE_DEEPSEEK))
  end.
Proof.
  unfold createContentGeneratorConfig. cbn [is_auth]. simpl String.eqb.
  cbn [orb andb].
  destruct (or_undefined (env proc !! "DEEPSEEK_API_KEY")); reflexivity.
Qed.

Lemma resolve_glm (proc : Process) (config : Config) :
  createContentGeneratorConfig DEFAULT_GEMINI_MODEL proc config (Some USE_GLM) =
  match or_chain (env proc !! "GLM_API_KEY") (env proc !! "ZHIPUAI_API_KEY") with
  | Some key =>
      plain (provider_config DEFAULT_GEMINI_MODEL config USE_GLM key
               (or_else (env proc !! "GLM_BASE_URL")
                  "https://open.bigmodel.cn/api/paas/v4")
               "glm")
  | None => plain (default_config DEFAULT_GEMINI_MODEL config (Some USE_GLM))
  end.
Proof.
  unfold createContentGeneratorConfig. cbn [is_auth]. simpl String.eqb.
  cbn [orb andb].
  destruct (or_chain (env proc !! "GLM_API_KEY") (env proc !! "ZHIPUAI_API_KEY"));
    reflexivity.
Qed.

Lemma or_undefined_set (v : string) :
  v <> EmptyString -> or_undefined (Some v) = Some v.
Proof. destruct v; [congruence | reflexivity]. Qed.

Lemma or_chain_unset (a b : option string) :
  or_undefined a = None -> or_undefined b = None -> or_chain a b = None.
Proof. unfold or_chain. now intros -> ->. Qed.

(** Without its key, set to a non-empty value, a selector of the
    OpenAI-compatible family resolves to the default configuration. *)
Lemma resolve_without_key (proc : Process) (config : Config) (a : string) :
  In a openai_compatible_authTypes ->
  (forall k, In k (credential_vars a) -> or_undefined (env proc !! k) = None) ->
  createContentGeneratorConfig DEFAULT_GEMINI_MODEL proc config (Some a)
    = plain (default_config DEFAULT_GEMINI_MODEL config (Some a)).
Proof.
  intros Ha Hk.
  destruct Ha as [<- | [<- | [<- | [<- | []]]]].
  - rewrite resolve_openai, (Hk "OPENAI_API_KEY"); [reflexivity | now left].
  - rewrite resolve_openrouter, (Hk "OPENROUTER_API_KEY"); [reflexivity | now left].
  - rewrite resolve_deepseek, (Hk "DEEPSEEK_API_KEY"); [reflexivity | now left].
  - rewrite resolve_glm, or_chain_unset; [reflexivity | |].
    + apply Hk. now left.
    + apply Hk. right. now left.
Qed.

(** A name that is not the selector's own is not accepted: in the
    process where that name alone is set, the selector's key is unset
    and resolution gives no provider. *)
Ltac refuse_name H n a resolve_a :=
  exfalso;
  let Hs := fresh "Hs" in
  assert (Hs : selectable DEFAULT_GEMINI_MODEL (process_with n "x")
                 sample_config a)
    by (apply (H _ _ "x"); [apply lookup_singleton_eq | discriminate]);
  unfold selectable in Hs; rewrite resolve_a in Hs;
  cbn [process_with env] in Hs;
  rewrite !lookup_singleton_ne in Hs by assumption;
  destruct Hs as [? Hs]; discriminate Hs.

(** The names accepted for each selector. *)
Lemma accepts_openai (n : string) :
  accepts DEFAULT_GEMINI_MODEL USE_OPENAI n <-> n = "OPENAI_API_KEY".
Proof.
  split.
  - intros H. destruct (decide (n = "OPENAI_API_KEY")) as [|Hne]; [assumption |].
    refuse_name H n USE_OPENAI resolve_openai.
  - intros -> proc config v Hv Hne. unfold selectable.
    rewrite resolve_openai, Hv, (or_undefined_set v Hne). now eexists.
Qed.

Lemma accepts_openrouter (n : string) :
  accepts DEFAULT_GEMINI_MODEL USE_OPENROUTER n <-> n = "OPENROUTER_API_KEY".
Proof.
  split.
  - intros H.
    destruct (decide (n = "OPENROUTER_API_KEY")) as [|Hne]; [assumption |].
    refuse_name H n USE_OPENROUTER resolve_openrouter.
  - intros -> proc config v Hv Hne. unfold selectable.
    rewrite resolve_openrouter, Hv, (or_undefined_set v Hne). now eexists.
Qed.

Lemma accepts_deepseek (n : string) :
  accepts DEFAULT_GEMINI_MODEL USE_DEEPSEEK n <-> n = "DEEPSEEK_API_KEY".
Proof.
  split.
  - intros H.
    destruct (decide (n = "DEEPSEEK_API_KEY")) as [|Hne]; [assumption |].
    refuse_name H n USE_DEEPSEEK resolve_deepseek.
  - intros -> proc config v Hv Hne. unfold selectable.
    rewrite resolve_deepseek, Hv, (or_undefined_set v Hne). now eexists.
Qed.

Lemma accepts_glm (n : string) :
  accepts DEFAULT_GEMINI_MODEL USE_GLM n <->
  n = "GLM_API_KEY" \/ n = "ZHIPUAI_API_KEY".
Proof.
  split.
  - intros H.
    destruct (decide (n = "GLM_API_KEY")) as [|Hne1]; [now left |].
    destruct (decide (n = "ZHIPUAI_API_KEY")) as [|Hne2]; [now right |].
    refuse_name H n USE_GLM resolve_glm.
  - intros [-> | ->] proc config v Hv Hne; unfold selectable;
      rewrite resolve_glm, Hv; unfold or_chain;
      rewrite (or_undefined_set v Hne).
    + now eexists.
    + destruct (or_undefined (env proc !! "GLM_API_KEY")); now eexists.
Qed.

End Resolution.

(** C6. With a selector of the OpenAI-compatible family whose API-key
    variable or variables are unset, resolution returns the default
    configuration: the model, the selector and the proxy, and no
    provider, no baseUrl and no apiKey; it does not fail and it checks
    no model. *)
Theorem C6_missing_key_falls_through (DEFAULT_GEMINI_MODEL : string)
    (proc : ContentGenerator.Process) (config : ContentGenerator.Config)
    (a : string) :
  In a ContentGenerator.openai_compatible_authTypes ->
  (forall k, In k (Spec.credential_vars a) ->
             ContentGenerator.env proc !! k = None) ->
  let r := ContentGenerator.createContentGeneratorConfig DEFAULT_GEMINI_MODEL
             proc config (Some a) in
  r = ContentGenerator.plain
        (Spec.default_config DEFAULT_GEMINI_MODEL config (Some a)) /\
  ContentGenerator.model (ContentGenerator.resolved r)
    = or_else (Some (ContentGenerator.getModel config)) DEFAULT_GEMINI_MODEL /\
  ContentGenerator.authType (ContentGenerator.resolved r) = Some a /\
  ContentGenerator.proxy (ContentGenerator.resolved r)
    = ContentGenerator.getProxy config /\
  ContentGenerator.provider (ContentGenerator.resolved r) = None /\
  ContentGenerator.baseUrl (ContentGenerator.resolved r) = None /\
  ContentGenerator.apiKey (ContentGenerator.resolved r) = None.
Proof.
  intros Ha Hk r.
  assert (Hr : r = ContentGenerator.plain
                     (Spec.default_config DEFAULT_GEMINI_MODEL config (Some a))).
  { apply resolve_without_key; [exact Ha |].
    intros k Hin. now rewrite (Hk k Hin). }
  rewrite Hr. repeat split.
Qed.

Lemma C6_missing_key_falls_through_witness :
  ContentGenerator.createContentGeneratorConfig "gemini-2.5-pro"
    (Samples.process_with "OPENAI_API_KEY" "sk-live") Samples.sample_config
    (Some ContentGenerator.USE_GLM)
  = ContentGenerator.plain
      (Spec.default_config "gemini-2.5-pro" Samples.sample_config
         (Some ContentGenerator.USE_GLM)).
Proof.
  apply (C6_missing_key_falls_through "gemini-2.5-pro"
           (Samples.process_with "OPENAI_API_KEY" "sk-live")
           Samples.sample_config ContentGenerator.USE_GLM).
  - right. right. right. left. reflexivity.
  - intros k [<- | [<- | []]]; reflexivity.
Defined.

(** C8 (as the code has it). The selector [glm] accepts two names for
    its credential, [GLM_API_KEY] and its alias [ZHIPUAI_API_KEY]; the
    selectors [openai], [openrouter] and [deepseek] accept one name
    each, [OPENAI_API_KEY], [OPENROUTER_API_KEY] and
    [DEEPSEEK_API_KEY]. *)
Theorem C8_credential_names (DEFAULT_GEMINI_MODEL : string) (n : string) :
  (Spec.accepts DEFAULT_GEMINI_MODEL ContentGenerator.USE_OPENAI n
     <-> n = "OPENAI_API_KEY") /\
  (Spec.accepts DEFAULT_GEMINI_MODEL ContentGenerator.USE_OPENROUTER n
     <-> n = "OPENROUTER_API_KEY") /\
  (Spec.accepts DEFAULT_GEMINI_MODEL ContentGenerator.USE_DEEPSEEK n
     <-> n = "DEEPSEEK_API_KEY") /\
  (Spec.accepts DEFAULT_GEMINI_MODEL ContentGenerator.USE_GLM n
     <-> n = "GLM_API_KEY" \/ n = "ZHIPUAI_API_KEY").
Proof.
  split; [apply accepts_openai |].
  split; [apply accepts_openrouter |].
  split; [apply accepts_deepseek | apply accepts_glm].
Qed.

(** C8 as stated fails: the selector [openai] has no two distinct
    names for its credential. *)
Lemma C8_credential_names_counterexample :
  ~ (forall a : string,
        In a ContentGenerator.openai_compatible_authTypes ->
        exists n1 n2 : string,
          n1 <> n2 /\
          Spec.accepts "gemini-2.5-pro" a n1 /\
          Spec.accepts "gemini-2.5-pro" a n2).
Proof.
  intros H.
  destruct (H ContentGenerator.USE_OPENAI) as (n1 & n2 & Hne & H1 & H2).
  - left. reflexivity.
  - apply accepts_openai in H1. apply accepts_openai in H2. congruence.
Qed.

(* ===================================================================== *)
(** ** The factory                                                        *)
(* ===================================================================== *)

Section Factory.

Import ContentGenerator Spec Samples.

(** A selector outside the enumeration matches no branch. *)
Lemma is_auth_unknown (a : option string) (x : string) :
  In x known_authTypes ->
  (forall s, a = Some s -> ~ In s known_authTypes) ->
  is_auth a x = false.
Proof.
  intros Hx Ha. destruct a as [s|]; [| reflexivity].
  simpl. destruct (String.eqb s x) eqn:E; [| reflexivity].
  apply String.eqb_eq in E. subst s. now destruct (Ha x eq_refl).
Qed.

(** Any selector outside the enumeration, [undefined] included, is
    refused with the error that names it; no backend is built. *)
Lemma factory_refuses_unknown (proc : Process) (config : ContentGeneratorConfig)
    (gcConfig : Config) (sessionId : option string) :
  (forall s, authType config = Some s -> ~ In s known_authTypes) ->
  createContentGenerator proc config gcConfig sessionId
    = Throw (Error ("Error creating contentGenerator: Unsupported authType: "
                    +:+ template (authType config))).
Proof.
  intros Ha. unfold createContentGenerator.
  rewrite !(is_auth_unknown (authType config)); try assumption;
    try reflexivity; unfold known_authTypes; simpl; tauto.
Qed.

(** Every selector of the enumeration reaches a branch, and each branch
    returns its backend inside the decorator, provided, for the
    OpenAI-compatible selectors, that the configuration has a
    [baseUrl]. *)
Lemma factory_wraps_known (proc : Process) (config : ContentGeneratorConfig)
    (gcConfig : Config) (sessionId : option string) (a : string) :
  authType config = Some a ->
  In a known_authTypes ->
  (In a openai_compatible_authTypes -> is_Some (baseUrl config)) ->
  exists backend,
    createContentGenerator proc config gcConfig sessionId
      = Ok (LoggingContentGenerator backend gcConfig).
Proof.
  intros Hauth Ha Hbase. unfold createContentGenerator. rewrite Hauth.
  destruct Ha as [<- | [<- | [<- | [<- | Ha]]]];
    try (eexists; reflexivity).
  assert (Hu : is_Some (baseUrl config)).
  { apply Hbase. exact Ha. }
  destruct Hu as [u Hu].
  destruct Ha as [<- | [<- | [<- | [<- | []]]]];
    cbn [is_auth]; simpl String.eqb; cbn [orb];
    unfold OpenAICompatible.new; cbn [OpenAICompatible.opt_baseUrl];
    rewrite Hu; eexists; reflexivity.
Qed.

(** C7, at the configuration that resolution returns for the selector
    [openai] when [OPENAI_API_KEY] is unset: the selector is of the
    enumeration, the factory enters the OpenAI-compatible branch, and
    the constructor throws on the absent [baseUrl]; no backend is built
    and none is wrapped. *)
Theorem C7_factory_missing_baseUrl :
  resolved (createContentGeneratorConfig "gemini-2.5-pro" sample_process
              sample_config (Some USE_OPENAI))
    = config_openai_without_key /\
  In USE_OPENAI known_authTypes /\
  createContentGenerator sample_process config_openai_without_key
    sample_config None
    = Throw (TypeError "Cannot read properties of undefined (reading 'replace')").
Proof.
  split; [reflexivity |]. split; [| reflexivity].
  unfold known_authTypes. simpl. tauto.
Qed.

End Factory.

(* ===================================================================== *)
(** ** Further properties of the adapter                                  *)
(* ===================================================================== *)

Section AdapterCoverage.

Import OpenAICompatible Spec Samples.

Lemma new_with_baseUrl (opts : OpenAICompatibleOptions) (u : string) :
  opt_baseUrl opts = Some u ->
  new opts =
  Ok {| baseUrl := strip_trailing_slash u;
        apiKey := opt_apiKey opts;
        defaultModel := opt_model opts;
        headers :=
          default ∅ (opt_httpHeaders opts) ∪
          <["Content-Type" := "application/json"]>
            (<["Authorization" := "Bearer " +:+ template (opt_apiKey opts)]> ∅) |}.
Proof. intros Hu. unfold new. now rewrite Hu. Qed.

(** Removing the final slash takes away that one character and no
    other. *)
Lemma strip_trailing_slash_cases (u : string) :
  if ends_with_slash u
  then u = strip_trailing_slash u +:+ "/"
  else strip_trailing_slash u = u.
Proof.
  induction u as [|c u IH]; [reflexivity |].
  destruct u as [|d u].
  - simpl. destruct (Ascii.eqb_spec c "/"%char) as [-> |]; reflexivity.
  - change (ends_with_slash (String c (String d u)))
      with (ends_with_slash (String d u)).
    change (strip_trailing_slash (String c (String d u)))
      with (String c (strip_trailing_slash (String d u))).
    destruct (ends_with_slash (String d u)).
    + change (String c (strip_trailing_slash (String d u)) +:+ "/")
        with (String c (strip_trailing_slash (String d u) +:+ "/")).
      now rewrite <- IH.
    + now rewrite IH.
Qed.

(** X1. The headers of a constructed adapter, which every request it
    sends carries: each additional header given in the options is kept
    with its value, also under the names [Authorization] and
    [Content-Type], which it then replaces; otherwise [Authorization] is
    [Bearer] followed by the key, [Content-Type] is [application/json],
    and no other header is present. *)
Theorem X1_headers_of_new (opts : OpenAICompatibleOptions)
    (g : OpenAICompatibleContentGenerator) :
  new opts = Ok g ->
  (forall k v, default ∅ (opt_httpHeaders opts) !! k = Some v ->
               headers g !! k = Some v) /\
  (default ∅ (opt_httpHeaders opts) !! "Authorization" = None ->
   headers g !! "Authorization"
     = Some ("Bearer " +:+ template (opt_apiKey opts))) /\
  (default ∅ (opt_httpHeaders opts) !! "Content-Type" = None ->
   headers g !! "Content-Type" = Some "application/json") /\
  (forall k, k <> "Authorization" -> k <> "Content-Type" ->
             default ∅ (opt_httpHeaders opts) !! k = None ->
             headers g !! k = None) /\
  (forall req id w,
      exists r, sent (snd (generateContent g req id w)) = sent w ++ [r] /\
                req_headers r = headers g).
Proof.
  intros Hnew. destruct (opt_baseUrl opts) as [u|] eqn:Hu.
  2:{ unfold new in Hnew. rewrite Hu in Hnew. discriminate. }
  rewrite (new_with_baseUrl opts u Hu) in Hnew. injection Hnew as <-.
  cbn [headers].
  split; [| split; [| split; [| split]]].
  - intros k v Hk. now apply lookup_union_Some_l.
  - intros Hk. rewrite (lookup_union_r _ _ _ Hk).
    rewrite lookup_insert_ne by discriminate.
    now rewrite lookup_insert_eq.
  - intros Hk. rewrite (lookup_union_r _ _ _ Hk). now rewrite lookup_insert_eq.
  - intros k Ha Hc Hk. rewrite (lookup_union_r _ _ _ Hk).
    rewrite lookup_insert_ne by congruence.
    rewrite lookup_insert_ne by congruence.
    now rewrite lookup_empty.
  - intros req id w. eexists. split; [apply generateContent_sends_one |].
    reflexivity.
Qed.

Lemma X1_headers_of_new_witness :
  exists g,
    new sample_options = Ok g /\
    headers g !! "User-Agent" = Some "GeminiCLI/1.0 (linux; x64)" /\
    headers g !! "Authorization" = Some "Bearer sk-or-1" /\
    headers g !! "Content-Type" = Some "application/json".
Proof.
  eexists. split; [reflexivity |].
  destruct (X1_headers_of_new sample_options _ eq_refl)
    as (Hkeep & Hauth & Hct & _).
  split; [apply Hkeep; reflexivity |].
  split; [apply Hauth; reflexivity | apply Hct; reflexivity].
Defined.

(** X2. With a [baseUrl], the constructor succeeds and keeps the key
    and the model; the adapter's [baseUrl] is the given one, or the
    given one without its last character when that is a slash: nothing
    else is removed, and a URL without a final slash is kept whole. *)
Theorem X2_new_keeps_base (opts : OpenAICompatibleOptions) (u : string) :
  opt_baseUrl opts = Some u ->
  exists g,
    new opts = Ok g /\
    apiKey g = opt_apiKey opts /\
    defaultModel g = opt_model opts /\
    (if ends_with_slash u then u = baseUrl g +:+ "/" else baseUrl g = u).
Proof.
  intros Hu. rewrite (new_with_baseUrl opts u Hu).
  eexists. split; [reflexivity |]. split; [reflexivity |].
  split; [reflexivity |]. cbn [baseUrl]. apply strip_trailing_slash_cases.
Qed.

Lemma X2_new_keeps_base_witness :
  exists g,
    new sample_options = Ok g /\
    apiKey g = Some "sk-or-1" /\
    defaultModel g = "gpt-4o-mini" /\
    "https://openrouter.ai/api/v1/" = baseUrl g +:+ "/".
Proof.
  apply (X2_new_keeps_base sample_options "https://openrouter.ai/api/v1/").
  reflexivity.
Defined.

(** X3. Tool declarations never reach the wire and never change the
    outcome: two requests that differ in their [tools] only send the
    same request and get the same result; what is sent is one [POST] to
    [baseUrl + "/chat/completions"], without [tools], with
    [stream: false], with one message per content and with the request's
    [temperature] and [topP]. *)
Theorem X3_tools_are_dropped (self : OpenAICompatibleContentGenerator)
    (m : option string) (contents : ContentListUnion)
    (t p : option Q) (tools1 tools2 : option (list Tool))
    (id : string) (w : World) :
  let req tools :=
    {| req_model := m; req_contents := contents;
       req_config := Some {| cfg_temperature := t; cfg_topP := p;
                             cfg_tools := tools |} |} in
  generateContent self (req tools1) id w = generateContent self (req tools2) id w /\
  exists r,
    sent (snd (generateContent self (req tools1) id w)) = sent w ++ [r] /\
    method r = "POST" /\
    url r = baseUrl self +:+ "/chat/completions" /\
    body_tools (body r) = None /\
    body_stream (body r) = false /\
    body_temperature (body r) = t /\
    body_top_p (body r) = p /\
    length (body_messages (body r)) = length (toContents contents).
Proof.
  intros req. split.
  - rewrite !generateContent_run. reflexivity.
  - eexists. split; [apply generateContent_sends_one |].
    repeat (split; [reflexivity |]).
    apply convert_length.
Qed.

Lemma first_choice_content_is (data v : json) :
  first_choice_is data v -> first_choice_content data = Some v.
Proof.
  intros (fields & choice & rest & msg & -> & Hc & Hm & Hv).
  unfold first_choice_content. simpl. rewrite Hc. simpl. rewrite Hm.
  simpl. exact Hv.
Qed.

(** X4. A success whose first choice has a message with a truthy
    content, a non-empty string for one, is translated into exactly one
    candidate, at index 0, of role [model], with exactly one part, whose
    text is that content; one request has been sent. *)
Theorem X4_success_translation (self : OpenAICompatibleContentGenerator)
    (req : GenerateContentParameters) (id : string) (w : World)
    (resp : Response) (data v : json) :
  network w (sent w) (chat_request self req) = Ok resp ->
  ok resp = true ->
  body_json resp = Some data ->
  first_choice_is data v ->
  truthy v = true ->
  exists r,
    generateContent self req id w = (Ok r, after w (chat_request self req)) /\
    candidates r
      = [ {| content := {| cand_role := "model";
                           cand_parts := [ {| part_text := v |} ] |};
             index := 0 |} ].
Proof.
  intros Hnet Hok Hjson Hfirst Hv.
  rewrite generateContent_run, Hnet, Hok, Hjson.
  eexists. split; [reflexivity |].
  rewrite candidates_shape, (first_choice_content_is _ _ Hfirst).
  destruct v; try discriminate Hv; cbn [nullish]; cbv zeta; now rewrite Hv.
Qed.

Lemma X4_success_translation_witness :
  exists r,
    generateContent sample_adapter sample_request "prompt-1"
      (always response_hello)
      = (Ok r, after (always response_hello)
                 (chat_request sample_adapter sample_request)) /\
    candidates r
      = [ {| content := {| cand_role := "model";
                           cand_parts := [ {| part_text := JStr "hello" |} ] |};
             index := 0 |} ].
Proof.
  apply (X4_success_translation sample_adapter sample_request "prompt-1"
           (always response_hello) response_hello data_hello (JStr "hello"));
    try reflexivity.
  eexists _, _, _, _. repeat split.
Defined.

(** X5. When [fetch] itself fails, [generateContent] fails with the
    error of [fetch], after that one attempt; and the stream of the same
    request ends with that error before any element. *)
Theorem X5_fetch_failure (self : OpenAICompatibleContentGenerator)
    (req : GenerateContentParameters) (id : string) (w : World) (e : error) :
  network w (sent w) (chat_request self req) = Throw e ->
  generateContent self req id w = (Throw e, after w (chat_request self req)) /\
  sent (after w (chat_request self req)) = sent w ++ [chat_request self req] /\
  for_await 1 (generateContentStream self req id) w
    = Some ([], Fails e, after w (chat_request self req)).
Proof.
  intros Hnet.
  assert (Hrun : generateContent self req id w
                 = (Throw e, after w (chat_request self req))).
  { now rewrite generateContent_run, Hnet. }
  split; [exact Hrun |]. split; [reflexivity |].
  unfold for_await, next. cbn [generateContentStream gen_state gen_self gen_req
                                gen_userPromptId].
  now rewrite Hrun.
Qed.

Lemma X5_fetch_failure_witness :
  generateContent sample_adapter sample_request "prompt-1" offline
    = (Throw (TypeError "fetch failed"),
       after offline (chat_request sample_adapter sample_request)).
Proof.
  apply (X5_fetch_failure sample_adapter sample_request "prompt-1" offline
           (TypeError "fetch failed")).
  reflexivity.
Defined.

(** X6. A success whose body is not JSON makes [generateContent] fail
    with a [SyntaxError]: no response is built from it. *)
Theorem X6_body_not_json (self : OpenAICompatibleContentGenerator)
    (req : GenerateContentParameters) (id : string) (w : World)
    (resp : Response) :
  network w (sent w) (chat_request self req) = Ok resp ->
  ok resp = true ->
  body_json resp = None ->
  exists msg,
    generateContent self req id w
      = (Throw (SyntaxError msg), after w (chat_request self req)).
Proof.
  intros Hnet Hok Hjson. eexists.
  now rewrite generateContent_run, Hnet, Hok, Hjson.
Qed.

Lemma X6_body_not_json_witness :
  exists msg,
    generateContent sample_adapter sample_request "prompt-1" (always response_html)
      = (Throw (SyntaxError msg),
         after (always response_html) (chat_request sample_adapter sample_request)).
Proof.
  apply (X6_body_not_json sample_adapter sample_request "prompt-1"
           (always response_html) response_html); reflexivity.
Defined.

(** X7. A request that names a model, by a non-empty string, is served
    with that model and not with the adapter's default: the body of the
    request names it, and so does [modelVersion] of every response
    returned, whatever the wire answers. *)
Theorem X7_request_model_wins (self : OpenAICompatibleContentGenerator)
    (req : GenerateContentParameters) (id : string) (w : World) (m : string) :
  req_model req = Some m ->
  m <> EmptyString ->
  body_model (body (chat_request self req)) = m /\
  (forall r, fst (generateContent self req id w) = Ok r -> modelVersion r = m) /\
  (forall resp data,
      network w (sent w) (chat_request self req) = Ok resp ->
      ok resp = true ->
      body_json resp = Some data ->
      exists r, fst (generateContent self req id w) = Ok r /\ modelVersion r = m).
Proof.
  intros Hm Hne.
  assert (Hor : or_else (req_model req) (defaultModel self) = m).
  { rewrite Hm. destruct m; [congruence | reflexivity]. }
  split; [exact Hor |]. split.
  - intros r. rewrite generateContent_run, Hor. simpl.
    destruct (network w (sent w) (chat_request self req)) as [resp|e];
      [| discriminate].
    destruct (ok resp); [| discriminate].
    destruct (body_json resp); [| discriminate].
    intros [= <-]. reflexivity.
  - intros resp data Hnet Hok Hjson.
    rewrite generateContent_run, Hnet, Hok, Hjson, Hor.
    eexists. split; reflexivity.
Qed.

Lemma X7_request_model_wins_witness :
  body_model (body (chat_request sample_adapter request_with_model))
    = "deepseek-chat" /\
  exists r,
    fst (generateContent sample_adapter request_with_model "prompt-1"
           (always response_hello)) = Ok r /\
    modelVersion r = "deepseek-chat".
Proof.
  assert (Hne : "deepseek-chat" <> EmptyString) by discriminate.
  destruct (X7_request_model_wins sample_adapter request_with_model "prompt-1"
              (always response_hello) "deepseek-chat" eq_refl Hne)
    as (Hbody & _ & Hresp).
  split; [exact Hbody |].
  apply (Hresp response_hello data_hello); reflexivity.
Defined.

(** X8. Whatever the wire's JSON is, the translated response has
    exactly one candidate, at index 0 and of role [model], with at most
    one part; a part is present only for a truthy text, so never for an
    empty one; and [modelVersion] is the model handed in. *)
Theorem X8_response_shape (data : json) (model : string) :
  modelVersion (fromOpenAIChatCompletion data model) = model /\
  exists ps,
    candidates (fromOpenAIChatCompletion data model)
      = [ {| content := {| cand_role := "model"; cand_parts := ps |};
             index := 0 |} ] /\
    length ps <= 1 /\
    Forall (fun p => truthy (part_text p) = true) ps /\
    Forall (fun p => part_text p <> JStr EmptyString /\ part_text p <> JNull) ps.
Proof.
  split; [reflexivity |].
  rewrite candidates_shape. cbv zeta.
  destruct (truthy (nullish (first_choice_content data) (JStr EmptyString)))
    eqn:E.
  - eexists. split; [reflexivity |]. split; [simpl; lia |].
    split; (constructor; [| constructor]); cbn [part_text]; [exact E |].
    split; intros Heq; rewrite Heq in E; discriminate E.
  - exists []. split; [reflexivity |]. split; [simpl; lia |].
    split; constructor.
Qed.

(** X9. The usage counts of a wire response whose [usage] is an object
    are copied field by field as they are, a count of zero included; a
    field that the object lacks stays [undefined]. *)
Theorem X9_usage_copied (data : json) (model : string)
    (fields ufields : list (string * json)) :
  data = JObj fields ->
  assoc "usage" fields = Some (JObj ufields) ->
  usageMetadata (fromOpenAIChatCompletion data model)
    = {| promptTokenCount := assoc "prompt_tokens" ufields;
         candidatesTokenCount := assoc "completion_tokens" ufields;
         totalTokenCount := assoc "total_tokens" ufields |}.
Proof.
  intros -> Hu. rewrite usage_shape. simpl. now rewrite Hu.
Qed.

Lemma X9_usage_copied_witness :
  usageMetadata (fromOpenAIChatCompletion data_usage "gpt-4o-mini")
    = {| promptTokenCount := Some (JNum 0);
         candidatesTokenCount := Some (JNum 1);
         totalTokenCount := Some (JNum 1) |}.
Proof.
  apply (X9_usage_copied data_usage "gpt-4o-mini"
           [ ("choices",
              JArr [ JObj [ ("message", JObj [ ("content", JStr "hi") ]) ] ]);
             ("usage",
              JObj [ ("prompt_tokens", JNum 0); ("completion_tokens", JNum 1);
                     ("total_tokens", JNum 1) ]) ]
           [ ("prompt_tokens", JNum 0); ("completion_tokens", JNum 1);
             ("total_tokens", JNum 1) ]);
    reflexivity.
Defined.

End AdapterCoverage.

Section TextCoverage.

Import OpenAICompatible Spec Samples.

Lemma lines_nonempty (ps : list PartItem) :
  Forall (fun s => nonempty s = true) (lines ps).
Proof.
  induction ps as [|p ps IH]; [constructor |].
  rewrite lines_cons. destruct (nonempty (part_text_of p)) eqn:E;
    [constructor |]; assumption.
Qed.

Lemma nonempty_false (s : string) : nonempty s = false <-> s = EmptyString.
Proof. destruct s; simpl; split; congruence. Qed.

Lemma partsToText_nonempty (ps : list PartItem) :
  nonempty (partsToText ps) = negb (bool_decide (lines ps = [])).
Proof.
  rewrite partsToText_lines. pose proof (lines_nonempty ps) as H.
  destruct (lines ps) as [|x l]; [reflexivity |].
  inversion H; subst. now rewrite join_nonempty.
Qed.

(** Joining two lists that both have an element. *)
Lemma join_app (sep x y : string) (l m : list string) :
  join sep ((x :: l) ++ (y :: m))
    = join sep (x :: l) +:+ sep +:+ join sep (y :: m).
Proof.
  revert x. induction l as [|z l IH]; intros x.
  - reflexivity.
  - change ((x :: z :: l) ++ y :: m) with (x :: ((z :: l) ++ y :: m)).
    destruct ((z :: l) ++ y :: m) as [|h t] eqn:E; [discriminate |].
    rewrite join_cons_cons, <- E, IH, join_cons_cons.
    now rewrite !append_assoc.
Qed.

(** X10. The content of a message is empty exactly when no part bears
    text: each part is a string that is empty, or an object whose [text]
    is empty or absent. *)
Theorem X10_empty_content (ps : list PartItem) :
  partsToText ps = EmptyString <->
  Forall (fun p => part_text_of p = EmptyString) ps.
Proof.
  rewrite <- nonempty_false, partsToText_nonempty.
  induction ps as [|p ps IH].
  - split; [constructor | reflexivity].
  - rewrite lines_cons. destruct (nonempty (part_text_of p)) eqn:E.
    + split; [discriminate |]. intros H. inversion H as [|? ? Hp _]; subst.
      rewrite Hp in E. discriminate E.
    + rewrite IH. apply nonempty_false in E. split.
      * intros H. now constructor.
      * intros H. now inversion H.
Qed.

(** X11. The content of the parts [ps] followed by the parts [qs] is
    the content of [ps], a line feed and the content of [qs]; when one
    of the two contents is empty it is the other one, without a line
    feed. *)
Theorem X11_content_of_append (ps qs : list PartItem) :
  partsToText (ps ++ qs) =
  if nonempty (partsToText ps) then
    if nonempty (partsToText qs)
    then partsToText ps +:+ nl +:+ partsToText qs
    else partsToText ps
  else partsToText qs.
Proof.
  rewrite !partsToText_nonempty, !partsToText_lines, lines_app.
  destruct (lines ps) as [|x l]; [reflexivity |].
  destruct (lines qs) as [|y m].
  - now rewrite app_nil_r.
  - apply join_app.
Qed.

Lemma convert_app (a b : list Content) :
  convertContentsToOpenAIMessages (a ++ b)
    = convertContentsToOpenAIMessages a ++ convertContentsToOpenAIMessages b.
Proof. unfold convertContentsToOpenAIMessages. apply map_app. Qed.

(** X12. The messages keep the order of the contents: the messages of
    two lists put end to end are the messages of the first followed by
    those of the second; and each message speaks the wire's vocabulary:
    its role is [assistant] or [user], and it is [assistant] only for a
    content whose role is exactly [model]. *)
Theorem X12_messages_in_order (a b : list Content) :
  convertContentsToOpenAIMessages (a ++ b)
    = convertContentsToOpenAIMessages a ++ convertContentsToOpenAIMessages b /\
  Forall (fun m => msg_role m = "assistant" \/ msg_role m = "user")
    (convertContentsToOpenAIMessages a) /\
  length (filter (fun m => msg_role m = "assistant")
            (convertContentsToOpenAIMessages a))
    = length (filter (fun c => role c = Some "model") a).
Proof.
  split; [apply convert_app |]. split.
  - induction a as [|c a IH]; [constructor |].
    constructor; [| exact IH]. simpl.
    destruct (role c) as [r|]; [| now right].
    destruct (String.eqb r "model"); [now left | now right].
  - induction a as [|c a IH]; [reflexivity |].
    change (convertContentsToOpenAIMessages (c :: a))
      with (hd {| msg_role := EmptyString; msg_content := EmptyString |}
              (convertContentsToOpenAIMessages [c])
            :: convertContentsToOpenAIMessages a).
    rewrite !filter_cons. simpl hd. cbn [msg_role].
    destruct (role c) as [r|].
    + destruct (String.eqb r "model") eqn:E.
      * apply String.eqb_eq in E. subst r.
        destruct (decide ("assistant" = "assistant")); [| congruence].
        destruct (decide (Some "model" = Some "model")); [| congruence].
        simpl. now rewrite IH.
      * apply String.eqb_neq in E.
        destruct (decide ("user" = "assistant")); [discriminate |].
        destruct (decide (Some r = Some "model")); [congruence |].
        exact IH.
    + destruct (decide ("user" = "assistant")); [discriminate |].
      destruct (decide (None = Some "model")); [discriminate |].
      exact IH.
Qed.

End TextCoverage.

Section StreamCoverage.

Import OpenAICompatible Spec Samples.

(** Once the body of the generator has started, [next] answers that
    the sequence is done and touches nothing. *)
Lemma pull_started (n : nat) :
  forall (g : AsyncGenerator) (w : World),
    gen_state g <> GenStart ->
    exists g',
      pull n g w = (repeat (Ok IterDone) n, g', w) /\
      gen_state g' <> GenStart.
Proof.
  induction n as [|n IH]; intros g w Hg.
  - exists g. split; [reflexivity | exact Hg].
  - cbn [pull]. unfold next.
    destruct (gen_state g) eqn:E; [congruence | |].
    + destruct (IH (at_state g GenCompleted) w) as (g' & Hp & Hs);
        [discriminate |].
      rewrite Hp. exists g'. split; [reflexivity | exact Hs].
    + destruct (IH g w) as (g' & Hp & Hs); [now rewrite E |].
      rewrite Hp. exists g'. split; [reflexivity | exact Hs].
Qed.

(** X13. However many times [next] is called on a stream, one request
    is sent, by the first call: the first result is the response of
    [generateContent] or its error, every later result says that the
    sequence is done, and the world stays as the first call left it. *)
Theorem X13_stream_calls_once (self : OpenAICompatibleContentGenerator)
    (req : GenerateContentParameters) (id : string) (w : World) (n : nat) :
  exists g',
    pull (S n) (generateContentStream self req id) w
      = ((match fst (generateContent self req id w) with
          | Ok r => Ok (IterValue r)
          | Throw e => Throw e
          end) :: repeat (Ok IterDone) n,
         g',
         after w (chat_request self req)) /\
    sent (after w (chat_request self req)) = sent w ++ [chat_request self req].
Proof.
  cbn [pull]. unfold next at 1.
  cbn [generateContentStream gen_state gen_self gen_req gen_userPromptId].
  rewrite generateContent_run. cbn [fst].
  set (first := match network w (sent w) (chat_request self req) with
                | Ok resp => _
                | Throw e => Throw e
                end).
  destruct first as [r|e].
  - match goal with
    | |- context [pull n ?g ?w1] =>
        destruct (pull_started n g w1) as (g' & Hp & _); [discriminate |]
    end.
    rewrite Hp. exists g'. split; reflexivity.
  - match goal with
    | |- context [pull n ?g ?w1] =>
        destruct (pull_started n g w1) as (g' & Hp & _); [discriminate |]
    end.
    rewrite Hp. exists g'. split; reflexivity.
Qed.

End StreamCoverage.

(* ===================================================================== *)
(** ** Further properties of the resolver                                 *)
(* ===================================================================== *)

Section ResolverCoverage.

Import ContentGenerator Spec Samples.

Variable DEFAULT_GEMINI_MODEL : string.

(** Case analysis on whether a selector is a given value of the
    enumeration. *)
Ltac selector_is s X :=
  let E := fresh "E" in
  destruct (String.eqb s X) eqn:E;
  [ apply String.eqb_eq in E; subst s | apply String.eqb_neq in E ].

(** The four shapes of a resolution. *)
Lemma resolve_shape (proc : Process) (config : Config) (a : option string) :
  let r := createContentGeneratorConfig DEFAULT_GEMINI_MODEL proc config a in
  r = plain (default_config DEFAULT_GEMINI_MODEL config a) \/
  (a = Some USE_GEMINI /\
   exists key,
     or_undefined (env proc !! "GEMINI_API_KEY") = Some key /\
     r = {| resolved := gemini_config DEFAULT_GEMINI_MODEL config key;
            model_checks :=
              [ {| check_apiKey := key;
                   check_model :=
                     or_else (Some (getModel config)) DEFAULT_GEMINI_MODEL;
                   check_proxy := getProxy config |} ] |}) \/
  (a = Some USE_VERTEX_AI /\
   (is_Some (or_undefined (env proc !! "GOOGLE_API_KEY")) \/
    is_Some (or_undefined (env proc !! "GOOGLE_CLOUD_PROJECT")) /\
    is_Some (or_undefined (env proc !! "GOOGLE_CLOUD_LOCATION"))) /\
   r = plain (vertex_config DEFAULT_GEMINI_MODEL config
                (or_undefined (env proc !! "GOOGLE_API_KEY")))) \/
  (exists name key,
     In name openai_compatible_authTypes /\
     a = Some name /\
     credential proc name = Some key /\
     r = plain (provider_config DEFAULT_GEMINI_MODEL config name key
                  (or_else (env proc !! base_url_var name) (default_base_url name))
                  name)).
Proof.
  intros r. subst r. destruct a as [s|]; [| now left].
  selector_is s LOGIN_WITH_GOOGLE; [now left |].
  selector_is s CLOUD_SHELL; [now left |].
  selector_is s USE_GEMINI.
  { unfold createContentGeneratorConfig. cbn [is_auth]. simpl String.eqb.
    cbn [orb andb].
    destruct (or_undefined (env proc !! "GEMINI_API_KEY")) as [key|] eqn:K.
    - right. left. split; [reflexivity |]. exists key. split; reflexivity.
    - now left. }
  selector_is s USE_VERTEX_AI.
  { unfold createContentGeneratorConfig. cbn [is_auth]. simpl String.eqb.
    cbn [orb andb].
    destruct (or_undefined (env proc !! "GOOGLE_API_KEY")) as [gk|] eqn:K.
    - right. right. left. split; [reflexivity |]. split; [| reflexivity].
      left. now eexists.
    - destruct (or_undefined (env proc !! "GOOGLE_CLOUD_PROJECT")) as [gp|] eqn:P;
        [| now left].
      destruct (or_undefined (env proc !! "GOOGLE_CLOUD_LOCATION")) as [gl|] eqn:L;
        [| now left].
      right. right. left. split; [reflexivity |]. split; [| reflexivity].
      right. split; now eexists. }
  selector_is s USE_OPENAI.
  { rewrite resolve_openai.
    destruct (or_undefined (env proc !! "OPENAI_API_KEY")) as [key|] eqn:K;
      [| now left].
    right. right. right. exists USE_OPENAI, key.
    split; [now left |]. split; [reflexivity |]. split; [exact K | reflexivity]. }
  selector_is s USE_OPENROUTER.
  { rewrite resolve_openrouter.
    destruct (or_undefined (env proc !! "OPENROUTER_API_KEY")) as [key|] eqn:K;
      [| now left].
    right. right. right. exists USE_OPENROUTER, key.
    split; [right; now left |]. split; [reflexivity |].
    split; [exact K | reflexivity]. }
  selector_is s USE_DEEPSEEK.
  { rewrite resolve_deepseek.
    destruct (or_undefined (env proc !! "DEEPSEEK_API_KEY")) as [key|] eqn:K;
      [| now left].
    right. right. right. exists USE_DEEPSEEK, key.
    split; [right; right; now left |]. split; [reflexivity |].
    split; [exact K | reflexivity]. }
  selector_is s USE_GLM.
  { rewrite resolve_glm.
    destruct (or_chain (env proc !! "GLM_API_KEY") (env proc !! "ZHIPUAI_API_KEY"))
      as [key|] eqn:K; [| now left].
    right. right. right. exists USE_GLM, key.
    split; [right; right; right; now left |]. split; [reflexivity |].
    split; [exact K | reflexivity]. }
  left. unfold createContentGeneratorConfig. cbn [is_auth].
  repeat match goal with
         | H : s <> ?X |- _ =>
             apply String.eqb_neq in H; rewrite H; clear H
         end.
  reflexivity.
Qed.

Lemma resolve_gemini (proc : Process) (config : Config) :
  createContentGeneratorConfig DEFAULT_GEMINI_MODEL proc config (Some USE_GEMINI) =
  match or_undefined (env proc !! "GEMINI_API_KEY") with
  | Some key =>
      {| resolved := gemini_config DEFAULT_GEMINI_MODEL config key;
         model_checks :=
           [ {| check_apiKey := key;
                check_model := or_else (Some (getModel config)) DEFAULT_GEMINI_MODEL;
                check_proxy := getProxy config |} ] |}
  | None => plain (default_config DEFAULT_GEMINI_MODEL config (Some USE_GEMINI))
  end.
Proof.
  unfold createContentGeneratorConfig. cbn [is_auth]. simpl String.eqb.
  cbn [orb andb].
  destruct (or_undefined (env proc !! "GEMINI_API_KEY")); reflexivity.
Qed.

Lemma resolve_vertex (proc : Process) (config : Config) :
  createContentGeneratorConfig DEFAULT_GEMINI_MODEL proc config (Some USE_VERTEX_AI) =
  match or_undefined (env proc !! "GOOGLE_API_KEY"),
        or_undefined (env proc !! "GOOGLE_CLOUD_PROJECT"),
        or_undefined (env proc !! "GOOGLE_CLOUD_LOCATION") with
  | Some key, _, _ => plain (vertex_config DEFAULT_GEMINI_MODEL config (Some key))
  | None, Some _, Some _ => plain (vertex_config DEFAULT_GEMINI_MODEL config None)
  | _, _, _ => plain (default_config DEFAULT_GEMINI_MODEL config (Some USE_VERTEX_AI))
  end.
Proof.
  unfold createContentGeneratorConfig. cbn [is_auth]. simpl String.eqb.
  cbn [orb andb].
  destruct (or_undefined (env proc !! "GOOGLE_API_KEY"));
    destruct (or_undefined (env proc !! "GOOGLE_CLOUD_PROJECT"));
    destruct (or_undefined (env proc !! "GOOGLE_CLOUD_LOCATION")); reflexivity.
Qed.

Lemma or_undefined_nonempty (a : option string) (k : string) :
  or_undefined a = Some k -> k <> EmptyString.
Proof.
  destruct a as [s|]; [| discriminate]. simpl.
  destruct s; [discriminate |]. intros [= <-]. discriminate.
Qed.

Lemma or_chain_nonempty (a b : option string) (k : string) :
  or_chain a b = Some k -> k <> EmptyString.
Proof.
  unfold or_chain. destruct (or_undefined a) as [s|] eqn:E.
  - intros [= <-]. now apply (or_undefined_nonempty a).
  - apply or_undefined_nonempty.
Qed.

Lemma or_else_nonempty (a : option string) (d : string) :
  d <> EmptyString -> or_else a d <> EmptyString.
Proof.
  intros Hd. destruct a as [s|]; [| exact Hd]. simpl.
  destruct s; [exact Hd | discriminate].
Qed.

Lemma credential_nonempty (proc : Process) (a key : string) :
  credential proc a = Some key -> key <> EmptyString.
Proof.
  unfold credential. destruct (credential_vars a) as [|k1 [|k2 l]].
  - discriminate.
  - apply or_undefined_nonempty.
  - apply or_chain_nonempty.
Qed.

Lemma default_base_url_nonempty (a : string) : default_base_url a <> EmptyString.
Proof.
  unfold default_base_url.
  repeat match goal with
         | |- context [if ?b then _ else _] => destruct b
         end; discriminate.
Qed.

Lemma compatible_is_known (a : string) :
  In a openai_compatible_authTypes -> In a known_authTypes.
Proof.
  unfold openai_compatible_authTypes, known_authTypes. simpl. tauto.
Qed.

End ResolverCoverage.

(** X14. The selectors of the interactive login and of Cloud Shell
    resolve to the default configuration whatever the environment holds:
    no key that is set is taken, and no model is checked. *)
Theorem X14_ambient_selectors (DEFAULT_GEMINI_MODEL : string)
    (proc : ContentGenerator.Process) (config : ContentGenerator.Config)
    (a : string) :
  a = ContentGenerator.LOGIN_WITH_GOOGLE \/ a = ContentGenerator.CLOUD_SHELL ->
  ContentGenerator.createContentGeneratorConfig DEFAULT_GEMINI_MODEL proc config
    (Some a)
  = ContentGenerator.plain
      (Spec.default_config DEFAULT_GEMINI_MODEL config (Some a)).
Proof. intros [-> | ->]; reflexivity. Qed.

Lemma X14_ambient_selectors_witness :
  ContentGenerator.createContentGeneratorConfig "gemini-2.5-pro"
    Samples.process_with_all Samples.sample_config
    (Some ContentGenerator.CLOUD_SHELL)
  = ContentGenerator.plain
      (Spec.default_config "gemini-2.5-pro" Samples.sample_config
         (Some ContentGenerator.CLOUD_SHELL)).
Proof.
  apply (X14_ambient_selectors "gemini-2.5-pro" Samples.process_with_all
           Samples.sample_config ContentGenerator.CLOUD_SHELL).
  right. reflexivity.
Defined.

(** X15. Resolution checks a model in one case only: the selector is
    [gemini-api-key] and [GEMINI_API_KEY] is set to a non-empty value;
    it then checks once, with that key, the model of the configuration
    and its proxy. *)
Theorem X15_model_check_only_for_gemini (DEFAULT_GEMINI_MODEL : string)
    (proc : ContentGenerator.Process) (config : ContentGenerator.Config)
    (a : option string) :
  let r := ContentGenerator.createContentGeneratorConfig DEFAULT_GEMINI_MODEL
             proc config a in
  (ContentGenerator.model_checks r <> [] <->
   a = Some ContentGenerator.USE_GEMINI /\
   is_Some (or_undefined (ContentGenerator.env proc !! "GEMINI_API_KEY"))) /\
  (forall c, In c (ContentGenerator.model_checks r) ->
     ContentGenerator.model_checks r = [c] /\
     or_undefined (ContentGenerator.env proc !! "GEMINI_API_KEY")
       = Some (ContentGenerator.check_apiKey c) /\
     ContentGenerator.apiKey (ContentGenerator.resolved r)
       = Some (ContentGenerator.check_apiKey c) /\
     ContentGenerator.check_model c
       = ContentGenerator.model (ContentGenerator.resolved r) /\
     ContentGenerator.check_proxy c = ContentGenerator.getProxy config).
Proof.
  intros r.
  destruct (resolve_shape DEFAULT_GEMINI_MODEL proc config a)
    as [H | [(Ha & key & Hk & H) | [(Ha & _ & H) | (n & k & _ & _ & _ & H)]]];
    fold r in H; rewrite H; cbn [ContentGenerator.model_checks ContentGenerator.plain].
  - split; [| intros c []]. split; [congruence |].
    intros (Ha & Hk). exfalso. subst a. unfold r in H.
    rewrite resolve_gemini in H. destruct Hk as [key Hk]. rewrite Hk in H.
    discriminate H.
  - split.
    + split; [| discriminate]. intros _. split; [exact Ha |].
      rewrite Hk. now eexists.
    + intros c [<- | []]. repeat split. exact Hk.
  - split; [| intros c []]. split; [congruence |].
    intros (Ha' & _). rewrite Ha in Ha'. discriminate Ha'.
  - split; [| intros c []]. split; [congruence |].
    intros (Ha & Hk). exfalso. subst a. unfold r in H.
    rewrite resolve_gemini in H. destruct Hk as [key Hk]. rewrite Hk in H.
    discriminate H.
Qed.

(** X16. With the selector [vertex-ai] and no [GOOGLE_API_KEY], the
    cloud project and the cloud location are both needed: with both, the
    configuration is the one of Vertex and carries no API key; with one
    of them missing, resolution gives the default configuration. *)
Theorem X16_vertex_without_key (DEFAULT_GEMINI_MODEL : string)
    (proc : ContentGenerator.Process) (config : ContentGenerator.Config) :
  or_undefined (ContentGenerator.env proc !! "GOOGLE_API_KEY") = None ->
  ContentGenerator.createContentGeneratorConfig DEFAULT_GEMINI_MODEL proc config
    (Some ContentGenerator.USE_VERTEX_AI)
  = if bool_decide
         (is_Some (or_undefined (ContentGenerator.env proc !! "GOOGLE_CLOUD_PROJECT")) /\
          is_Some (or_undefined (ContentGenerator.env proc !! "GOOGLE_CLOUD_LOCATION")))
    then ContentGenerator.plain
           (Spec.vertex_config DEFAULT_GEMINI_MODEL config None)
    else ContentGenerator.plain
           (Spec.default_config DEFAULT_GEMINI_MODEL config
              (Some ContentGenerator.USE_VERTEX_AI)).
Proof.
  intros Hk. rewrite resolve_vertex, Hk.
  destruct (or_undefined (ContentGenerator.env proc !! "GOOGLE_CLOUD_PROJECT"))
    as [gp|];
    destruct (or_undefined (ContentGenerator.env proc !! "GOOGLE_CLOUD_LOCATION"))
      as [gl|].
  - rewrite bool_decide_eq_true_2; [reflexivity | split; now eexists].
  - rewrite bool_decide_eq_false_2; [reflexivity |].
    intros [_ [? H]]; discriminate H.
  - rewrite bool_decide_eq_false_2; [reflexivity |].
    intros [[? H] _]; discriminate H.
  - rewrite bool_decide_eq_false_2; [reflexivity |].
    intros [[? H] _]; discriminate H.
Qed.

Lemma X16_vertex_without_key_witness :
  ContentGenerator.createContentGeneratorConfig "gemini-2.5-pro"
    Samples.process_cloud_project Samples.sample_config
    (Some ContentGenerator.USE_VERTEX_AI)
  = ContentGenerator.plain
      (Spec.vertex_config "gemini-2.5-pro" Samples.sample_config None).
Proof.
  apply (X16_vertex_without_key "gemini-2.5-pro" Samples.process_cloud_project
           Samples.sample_config).
  reflexivity.
Defined.

Lemma resolve_with_key (DEFAULT_GEMINI_MODEL : string)
    (proc : ContentGenerator.Process) (config : ContentGenerator.Config)
    (a key : string) :
  In a ContentGenerator.openai_compatible_authTypes ->
  Spec.credential proc a = Some key ->
  ContentGenerator.createContentGeneratorConfig DEFAULT_GEMINI_MODEL proc config
    (Some a)
  = ContentGenerator.plain
      (Spec.provider_config DEFAULT_GEMINI_MODEL config a key
         (or_else (ContentGenerator.env proc !! Spec.base_url_var a)
            (Spec.default_base_url a))
         a).
Proof.
  intros Ha Hk. destruct Ha as [<- | [<- | [<- | [<- | []]]]];
    unfold Spec.credential in Hk; cbn in Hk.
  - rewrite resolve_openai, Hk. reflexivity.
  - rewrite resolve_openrouter, Hk. reflexivity.
  - rewrite resolve_deepseek, Hk. reflexivity.
  - rewrite resolve_glm, Hk. reflexivity.
Qed.

(** X17. A selector of the OpenAI-compatible family whose key is set
    resolves to a complete configuration for its provider: the provider
    is the selector, the key is the one read, which is not empty, and
    the base URL is the value of the selector's base-URL variable when
    that is set to a non-empty value and the selector's default URL
    otherwise; no model is checked. *)
Theorem X17_provider_configuration (DEFAULT_GEMINI_MODEL : string)
    (proc : ContentGenerator.Process) (config : ContentGenerator.Config)
    (a key : string) :
  In a ContentGenerator.openai_compatible_authTypes ->
  Spec.credential proc a = Some key ->
  let r := ContentGenerator.createContentGeneratorConfig DEFAULT_GEMINI_MODEL
             proc config (Some a) in
  ContentGenerator.provider (ContentGenerator.resolved r) = Some a /\
  ContentGenerator.apiKey (ContentGenerator.resolved r) = Some key /\
  key <> EmptyString /\
  ContentGenerator.baseUrl (ContentGenerator.resolved r)
    = Some (match ContentGenerator.env proc !! Spec.base_url_var a with
            | Some u => if nonempty u then u else Spec.default_base_url a
            | None => Spec.default_base_url a
            end) /\
  ContentGenerator.authType (ContentGenerator.resolved r) = Some a /\
  ContentGenerator.model (ContentGenerator.resolved r)
    = or_else (Some (ContentGenerator.getModel config)) DEFAULT_GEMINI_MODEL /\
  ContentGenerator.model_checks r = [].
Proof.
  intros Ha Hk r. unfold r.
  rewrite (resolve_with_key DEFAULT_GEMINI_MODEL proc config a key Ha Hk).
  repeat split. now apply (credential_nonempty proc a).
Qed.

Lemma X17_provider_configuration_witness :
  let r := ContentGenerator.createContentGeneratorConfig "gemini-2.5-pro"
             Samples.process_with_all Samples.sample_config
             (Some ContentGenerator.USE_DEEPSEEK) in
  ContentGenerator.provider (ContentGenerator.resolved r) = Some "deepseek" /\
  ContentGenerator.apiKey (ContentGenerator.resolved r) = Some "d-key" /\
  ContentGenerator.baseUrl (ContentGenerator.resolved r)
    = Some "https://proxy.example.com/deepseek/".
Proof.
  assert (Ha : In ContentGenerator.USE_DEEPSEEK
                 ContentGenerator.openai_compatible_authTypes).
  { right. right. left. reflexivity. }
  destruct (X17_provider_configuration "gemini-2.5-pro" Samples.process_with_all
              Samples.sample_config ContentGenerator.USE_DEEPSEEK "d-key" Ha eq_refl)
    as (Hp & Hkey & _ & Hbase & _).
  split; [exact Hp |]. split; [exact Hkey | exact Hbase].
Defined.

(** X18. For the selector [glm], when the alias [ZHIPUAI_API_KEY] is
    set to a non-empty value the selector resolves to the provider, and
    the key taken is the value of [GLM_API_KEY] when that is set to a
    non-empty value and the value of the alias otherwise: the alias
    never wins over the primary name. *)
Theorem X18_glm_alias_precedence (DEFAULT_GEMINI_MODEL : string)
    (proc : ContentGenerator.Process) (config : ContentGenerator.Config)
    (alias : string) :
  ContentGenerator.env proc !! "ZHIPUAI_API_KEY" = Some alias ->
  alias <> EmptyString ->
  let r := ContentGenerator.createContentGeneratorConfig DEFAULT_GEMINI_MODEL
             proc config (Some ContentGenerator.USE_GLM) in
  ContentGenerator.provider (ContentGenerator.resolved r) = Some "glm" /\
  ContentGenerator.apiKey (ContentGenerator.resolved r)
    = Some (match ContentGenerator.env proc !! "GLM_API_KEY" with
            | Some primary => if nonempty primary then primary else alias
            | None => alias
            end).
Proof.
  intros Halias Hne r. unfold r. rewrite resolve_glm, Halias.
  unfold or_chain. rewrite (or_undefined_set alias Hne).
  destruct (ContentGenerator.env proc !! "GLM_API_KEY") as [primary|];
    [| split; reflexivity].
  simpl. destruct (nonempty primary); split; reflexivity.
Qed.

Lemma X18_glm_alias_precedence_witness :
  ContentGenerator.apiKey
    (ContentGenerator.resolved
       (ContentGenerator.createContentGeneratorConfig "gemini-2.5-pro"
          Samples.process_with_all Samples.sample_config
          (Some ContentGenerator.USE_GLM))) = Some "z-key" /\
  ContentGenerator.apiKey
    (ContentGenerator.resolved
       (ContentGenerator.createContentGeneratorConfig "gemini-2.5-pro"
          Samples.process_alias_only Samples.sample_config
          (Some ContentGenerator.USE_GLM))) = Some "alias-key".
Proof.
  assert (Hne : "alias-key" <> EmptyString) by discriminate.
  split.
  - apply (X18_glm_alias_precedence "gemini-2.5-pro" Samples.process_with_all
             Samples.sample_config "alias-key" eq_refl Hne).
  - apply (X18_glm_alias_precedence "gemini-2.5-pro" Samples.process_alias_only
             Samples.sample_config "alias-key" eq_refl Hne).
Defined.

(** X19. A key variable set to the empty string counts as unset: a
    selector of the OpenAI-compatible family each of whose key
    variables is unset or empty resolves to the default configuration,
    with no provider, no baseUrl and no apiKey. *)
Theorem X19_empty_key_is_unset (DEFAULT_GEMINI_MODEL : string)
    (proc : ContentGenerator.Process) (config : ContentGenerator.Config)
    (a : string) :
  In a ContentGenerator.openai_compatible_authTypes ->
  (forall k, In k (Spec.credential_vars a) ->
     ContentGenerator.env proc !! k = None \/
     ContentGenerator.env proc !! k = Some EmptyString) ->
  ContentGenerator.createContentGeneratorConfig DEFAULT_GEMINI_MODEL proc config
    (Some a)
  = ContentGenerator.plain
      (Spec.default_config DEFAULT_GEMINI_MODEL config (Some a)).
Proof.
  intros Ha Hk. apply resolve_without_key; [exact Ha |].
  intros k Hin. destruct (Hk k Hin) as [-> | ->]; reflexivity.
Qed.

Lemma X19_empty_key_is_unset_witness :
  ContentGenerator.createContentGeneratorConfig "gemini-2.5-pro"
    Samples.process_empty_key Samples.sample_config
    (Some ContentGenerator.USE_OPENAI)
  = ContentGenerator.plain
      (Spec.default_config "gemini-2.5-pro" Samples.sample_config
         (Some ContentGenerator.USE_OPENAI)).
Proof.
  apply (X19_empty_key_is_unset "gemini-2.5-pro" Samples.process_empty_key
           Samples.sample_config ContentGenerator.USE_OPENAI).
  - left. reflexivity.
  - intros k [<- | []]. right. reflexivity.
Defined.

(** X20. Every resolution, whatever the selector and the environment,
    returns the model of the configuration or the default model, the
    selector and the proxy as given; it has a provider exactly when it
    has a base URL; a provider is the selector itself, of the
    OpenAI-compatible family, and comes with a key; and a key or a base
    URL that is present is never the empty string. *)
Theorem X20_resolution_invariant (DEFAULT_GEMINI_MODEL : string)
    (proc : ContentGenerator.Process) (config : ContentGenerator.Config)
    (a : option string) :
  let c := ContentGenerator.resolved
             (ContentGenerator.createContentGeneratorConfig
                DEFAULT_GEMINI_MODEL proc config a) in
  ContentGenerator.model c
    = or_else (Some (ContentGenerator.getModel config)) DEFAULT_GEMINI_MODEL /\
  ContentGenerator.authType c = a /\
  ContentGenerator.proxy c = ContentGenerator.getProxy config /\
  (is_Some (ContentGenerator.provider c) <-> is_Some (ContentGenerator.baseUrl c)) /\
  (forall p, ContentGenerator.provider c = Some p ->
     a = Some p /\
     In p ContentGenerator.openai_compatible_authTypes /\
     is_Some (ContentGenerator.apiKey c)) /\
  (forall k, ContentGenerator.apiKey c = Some k -> k <> EmptyString) /\
  (forall u, ContentGenerator.baseUrl c = Some u -> u <> EmptyString).
Proof.
  intros c.
  destruct (resolve_shape DEFAULT_GEMINI_MODEL proc config a)
    as [H | [(Ha & key & Hk & H) | [(Ha & _ & H) | (n & k & Hn & Ha & Hk & H)]]];
    unfold c; rewrite H; clear H c;
    cbn [ContentGenerator.resolved ContentGenerator.plain].
  - do 3 (split; [reflexivity |]).
    split; [split; intros [? Hx]; discriminate Hx |].
    split; [| split]; intros ? Hx; discriminate Hx.
  - subst a. do 3 (split; [reflexivity |]).
    split; [split; intros [? Hx]; discriminate Hx |].
    split; [intros ? Hx; discriminate Hx |].
    split; [| intros ? Hx; discriminate Hx].
    intros k [= <-]. now apply (or_undefined_nonempty _ _ Hk).
  - subst a. do 3 (split; [reflexivity |]).
    split; [split; intros [? Hx]; discriminate Hx |].
    split; [intros ? Hx; discriminate Hx |].
    split; [| intros ? Hx; discriminate Hx].
    intros k Hx. now apply (or_undefined_nonempty _ _ Hx).
  - subst a. split; [reflexivity |]. split; [reflexivity |].
    split; [reflexivity |]. split; [split; intros _; now eexists |].
    split; [| split].
    + intros p [= <-]. split; [reflexivity |]. split; [exact Hn | now eexists].
    + intros k' [= <-]. now apply (credential_nonempty proc n).
    + intros u [= <-]. apply or_else_nonempty, default_base_url_nonempty.
Qed.

(** X21. A selector that is not of the enumeration, and an absent
    selector, resolve to the default configuration whatever the
    environment holds: resolution refuses nothing. *)
Theorem X21_unknown_selector_resolves (DEFAULT_GEMINI_MODEL : string)
    (proc : ContentGenerator.Process) (config : ContentGenerator.Config)
    (a : option string) :
  (forall s, a = Some s -> ~ In s ContentGenerator.known_authTypes) ->
  ContentGenerator.createContentGeneratorConfig DEFAULT_GEMINI_MODEL proc config a
  = ContentGenerator.plain (Spec.default_config DEFAULT_GEMINI_MODEL config a).
Proof.
  intros Hun.
  destruct (resolve_shape DEFAULT_GEMINI_MODEL proc config a)
    as [H | [(Ha & _) | [(Ha & _) | (n & k & Hn & Ha & _)]]]; [exact H | | |];
    exfalso; apply (Hun _ Ha).
  - unfold ContentGenerator.known_authTypes. simpl. tauto.
  - unfold ContentGenerator.known_authTypes. simpl. tauto.
  - now apply compatible_is_known.
Qed.

Lemma X21_unknown_selector_resolves_witness :
  ContentGenerator.createContentGeneratorConfig "gemini-2.5-pro"
    Samples.process_with_all Samples.sample_config (Some "anthropic")
  = ContentGenerator.plain
      (Spec.default_config "gemini-2.5-pro" Samples.sample_config
         (Some "anthropic")).
Proof.
  apply (X21_unknown_selector_resolves "gemini-2.5-pro" Samples.process_with_all
           Samples.sample_config (Some "anthropic")).
  intros s [= <-] Hin. unfold ContentGenerator.known_authTypes in Hin.
  simpl in Hin. repeat (destruct Hin as [Hin | Hin]; [discriminate Hin |]).
  exact Hin.
Defined.

(* ===================================================================== *)
(** ** Further properties of the factory                                  *)
(* ===================================================================== *)

Section FactoryCoverage.

Import ContentGenerator Spec Samples.

(** The factory on a selector of the OpenAI-compatible family. *)
Lemma factory_openai_compatible (proc : Process) (config : ContentGeneratorConfig)
    (gcConfig : Config) (sessionId : option string) (a : string) :
  authType config = Some a ->
  In a openai_compatible_authTypes ->
  createContentGenerator proc config gcConfig sessionId =
  match OpenAICompatible.new
          {| OpenAICompatible.opt_baseUrl := baseUrl config;
             OpenAICompatible.opt_apiKey := apiKey config;
             OpenAICompatible.opt_model := model config;
             OpenAICompatible.opt_httpHeaders :=
               Some {[ "User-Agent" := user_agent proc ]} |}
  with
  | Ok provider =>
      Ok (LoggingContentGenerator (OpenAICompatibleBackend provider) gcConfig)
  | Throw e => Throw e
  end.
Proof.
  intros Hauth Ha. unfold createContentGenerator. rewrite Hauth.
  destruct Ha as [<- | [<- | [<- | [<- | []]]]]; reflexivity.
Qed.

(** X22. For a selector of the enumeration the factory builds the
    backend of that selector and no other, inside the decorator: the
    Code Assist backend for the interactive login and Cloud Shell, with
    the selector, the session and the client's identification; the
    direct client for [gemini-api-key] and [vertex-ai], with the Vertex
    flag and the key, an empty key being passed as [undefined]; the
    OpenAI-compatible adapter for the four other selectors, constructed
    from the configuration's base URL, key and model, when the base URL
    is present. *)
Theorem X22_factory_backends (proc : Process) (config : ContentGeneratorConfig)
    (gcConfig : Config) (sessionId : option string) (a : string) :
  authType config = Some a ->
  In a known_authTypes ->
  (In a openai_compatible_authTypes -> is_Some (baseUrl config)) ->
  exists backend,
    createContentGenerator proc config gcConfig sessionId
      = Ok (LoggingContentGenerator backend gcConfig) /\
    match backend with
    | CodeAssistBackend h a' gc' sid' =>
        (a = LOGIN_WITH_GOOGLE \/ a = CLOUD_SHELL) /\
        a' = a /\ gc' = gcConfig /\ sid' = sessionId /\
        http_headers h = {[ "User-Agent" := user_agent proc ]}
    | GoogleGenAIModels k v h =>
        (a = USE_GEMINI \/ a = USE_VERTEX_AI) /\
        k = (if bool_decide (apiKey config = Some EmptyString)
             then None else apiKey config) /\
        v = vertexai config /\
        http_headers h = {[ "User-Agent" := user_agent proc ]}
    | OpenAICompatibleBackend g =>
        In a openai_compatible_authTypes /\
        OpenAICompatible.new
          {| OpenAICompatible.opt_baseUrl := baseUrl config;
             OpenAICompatible.opt_apiKey := apiKey config;
             OpenAICompatible.opt_model := model config;
             OpenAICompatible.opt_httpHeaders :=
               Some {[ "User-Agent" := user_agent proc ]} |} = Ok g
    end.
Proof.
  intros Hauth Ha Hbase.
  destruct Ha as [<- | [<- | [<- | [<- | Ha]]]].
  - eexists. unfold createContentGenerator. rewrite Hauth.
    split; [reflexivity |]. cbv beta iota. repeat split. now left.
  - eexists. unfold createContentGenerator. rewrite Hauth.
    split; [reflexivity |]. cbv beta iota. repeat split;
      [now left | now destruct (apiKey config) as [[|c k]|]].
  - eexists. unfold createContentGenerator. rewrite Hauth.
    split; [reflexivity |]. cbv beta iota. repeat split;
      [now right | now destruct (apiKey config) as [[|c k]|]].
  - eexists. unfold createContentGenerator. rewrite Hauth.
    split; [reflexivity |]. cbv beta iota. repeat split. now right.
  - assert (Hc : In a openai_compatible_authTypes) by exact Ha.
    rewrite (factory_openai_compatible proc config gcConfig sessionId a Hauth Hc).
    destruct (Hbase Hc) as [u Hu].
    unfold OpenAICompatible.new. cbn [OpenAICompatible.opt_baseUrl].
    rewrite Hu. eexists. split; [reflexivity |]. cbv beta iota.
    split; [exact Hc | reflexivity].
Qed.

Lemma X22_factory_backends_witness :
  exists backend,
    createContentGenerator sample_process config_gemini_empty_key
      sample_config None
      = Ok (LoggingContentGenerator backend sample_config) /\
    match backend with
    | GoogleGenAIModels k v h =>
        k = None /\ v = Some false /\
        http_headers h = {[ "User-Agent" := "GeminiCLI/v20.11.0 (linux; x64)" ]}
    | _ => False
    end.
Proof.
  assert (Ha : In USE_GEMINI known_authTypes).
  { right. left. reflexivity. }
  assert (Hb : In USE_GEMINI openai_compatible_authTypes ->
               is_Some (baseUrl config_gemini_empty_key)).
  { intros Hin. simpl in Hin.
    repeat (destruct Hin as [Hin | Hin]; [discriminate Hin |]). destruct Hin. }
  destruct (X22_factory_backends sample_process config_gemini_empty_key
              sample_config None USE_GEMINI eq_refl Ha Hb) as (backend & Hc & Hm).
  exists backend. split; [exact Hc |].
  destruct backend as [h a' gc' sid' | k v h | g].
  - destruct Hm as ([Hm | Hm] & _); discriminate Hm.
  - destruct Hm as (_ & Hk & Hv & Hh). split; [exact Hk |].
    split; [exact Hv | exact Hh].
  - destruct Hm as (Hin & _). simpl in Hin.
    repeat (destruct Hin as [Hin | Hin]; [discriminate Hin |]). destruct Hin.
Defined.

(** X23. For a selector that is not of the enumeration, and for an
    absent selector, the factory fails with an [Error] whose message
    ends with the selector as given, or with [undefined]: it builds no
    backend, whatever else the configuration holds. *)
Theorem X23_factory_names_unknown_selector (proc : Process)
    (config : ContentGeneratorConfig) (gcConfig : Config)
    (sessionId : option string) :
  (forall s, authType config = Some s -> ~ In s known_authTypes) ->
  exists msg,
    createContentGenerator proc config gcConfig sessionId = Throw (Error msg) /\
    msg = "Error creating contentGenerator: Unsupported authType: "
          +:+ match authType config with
              | Some s => s
              | None => "undefined"
              end.
Proof.
  intros Hun. eexists. split; [now apply factory_refuses_unknown |].
  reflexivity.
Qed.

Lemma X23_factory_names_unknown_selector_witness :
  createContentGenerator process_with_all config_unknown_selector sample_config None
  = Throw (Error "Error creating contentGenerator: Unsupported authType: anthropic").
Proof.
  destruct (X23_factory_names_unknown_selector process_with_all
              config_unknown_selector sample_config None) as (msg & Hc & ->).
  - intros s [= <-] Hin. unfold known_authTypes in Hin. simpl in Hin.
    repeat (destruct Hin as [Hin | Hin]; [discriminate Hin |]). exact Hin.
  - exact Hc.
Defined.

(** The headers of the adapter that the factory constructs. *)
Lemma factory_headers (proc : Process) (key : option string) (k : string) :
  (({[ "User-Agent" := user_agent proc ]} : gmap string string) ∪
   <["Content-Type" := "application/json"]>
     (<["Authorization" := "Bearer " +:+ template key]> ∅)) !! k
  = if String.eqb k "User-Agent" then Some (user_agent proc)
    else if String.eqb k "Content-Type" then Some "application/json"
    else if String.eqb k "Authorization" then Some ("Bearer " +:+ template key)
    else None.
Proof.
  destruct (String.eqb k "User-Agent") eqn:E1.
  { apply String.eqb_eq in E1. subst k.
    apply lookup_union_Some_l. apply lookup_singleton_eq. }
  apply String.eqb_neq in E1.
  rewrite lookup_union_r by (apply lookup_singleton_ne; congruence).
  destruct (String.eqb k "Content-Type") eqn:E2.
  { apply String.eqb_eq in E2. subst k. apply lookup_insert_eq. }
  apply String.eqb_neq in E2.
  rewrite lookup_insert_ne by congruence.
  destruct (String.eqb k "Authorization") eqn:E3.
  { apply String.eqb_eq in E3. subst k. apply lookup_insert_eq. }
  apply String.eqb_neq in E3.
  rewrite lookup_insert_ne by congruence. apply lookup_empty.
Qed.

(** X24. For a selector of the OpenAI-compatible family and a
    configuration with a base URL, the factory returns, inside the
    decorator, an adapter whose base URL is the configuration's without
    one final slash, whose default model is the configuration's model,
    and whose headers are three: the client's identification as
    [User-Agent], [application/json] as [Content-Type], and [Bearer]
    followed by the configuration's key, or by [undefined] when it has
    none, as [Authorization]. *)
Theorem X24_factory_adapter (proc : Process) (config : ContentGeneratorConfig)
    (gcConfig : Config) (sessionId : option string) (a u : string) :
  authType config = Some a ->
  In a openai_compatible_authTypes ->
  baseUrl config = Some u ->
  exists g,
    createContentGenerator proc config gcConfig sessionId
      = Ok (LoggingContentGenerator (OpenAICompatibleBackend g) gcConfig) /\
    OpenAICompatible.baseUrl g = strip_trailing_slash u /\
    OpenAICompatible.defaultModel g = model config /\
    forall k,
      OpenAICompatible.headers g !! k
      = if String.eqb k "User-Agent" then Some (user_agent proc)
        else if String.eqb k "Content-Type" then Some "application/json"
        else if String.eqb k "Authorization"
             then Some ("Bearer " +:+ match apiKey config with
                                      | Some key => key
                                      | None => "undefined"
                                      end)
        else None.
Proof.
  intros Hauth Ha Hu.
  rewrite (factory_openai_compatible proc config gcConfig sessionId a Hauth Ha).
  unfold OpenAICompatible.new. cbn [OpenAICompatible.opt_baseUrl]. rewrite Hu.
  eexists. split; [reflexivity |]. split; [reflexivity |].
  split; [reflexivity |].
  intros k. cbn [OpenAICompatible.headers OpenAICompatible.opt_httpHeaders
                 OpenAICompatible.opt_apiKey default].
  apply factory_headers.
Qed.

Lemma X24_factory_adapter_witness :
  exists g,
    createContentGenerator process_versioned
      (resolved (createContentGeneratorConfig "gemini-2.5-pro" process_versioned
                   sample_config (Some USE_OPENROUTER)))
      sample_config None
      = Ok (LoggingContentGenerator (OpenAICompatibleBackend g) sample_config) /\
    OpenAICompatible.baseUrl g = "https://openrouter.ai/api/v1" /\
    OpenAICompatible.headers g !! "User-Agent"
      = Some "GeminiCLI/0.1.18 (darwin; arm64)" /\
    OpenAICompatible.headers g !! "Authorization" = Some "Bearer r-key".
Proof.
  assert (Ha : In USE_OPENROUTER openai_compatible_authTypes).
  { right. left. reflexivity. }
  destruct (X24_factory_adapter process_versioned
              (resolved (createContentGeneratorConfig "gemini-2.5-pro"
                           process_versioned sample_config (Some USE_OPENROUTER)))
              sample_config None USE_OPENROUTER "https://openrouter.ai/api/v1"
              eq_refl Ha eq_refl)
    as (g & Hc & Hb & _ & Hh).
  exists g. split; [exact Hc |]. split; [exact Hb |].
  split; [exact (Hh "User-Agent") | exact (Hh "Authorization")].
Defined.

End FactoryCoverage.

(* ===================================================================== *)
(** ** Resolution, construction and a call, one after the other           *)
(* ===================================================================== *)

(** X25. With a selector of the OpenAI-compatible family whose key is
    set, resolving and then constructing gives an adapter each call of
    which sends one request, to the selector's base URL (its variable's
    value or its default, without one final slash) followed by
    [/chat/completions], authorised by [Bearer] and the key read from the
    environment, and, for a request without a model of its own, for the
    model of the configuration or the default model. *)
Theorem X25_resolved_adapter_requests (DEFAULT_GEMINI_MODEL : string)
    (proc : ContentGenerator.Process) (gcConfig : ContentGenerator.Config)
    (sessionId : option string) (a key : string) :
  In a ContentGenerator.openai_compatible_authTypes ->
  Spec.credential proc a = Some key ->
  exists g,
    ContentGenerator.createContentGenerator proc
      (ContentGenerator.resolved
         (ContentGenerator.createContentGeneratorConfig DEFAULT_GEMINI_MODEL
            proc gcConfig (Some a)))
      gcConfig sessionId
    = Ok (ContentGenerator.LoggingContentGenerator
            (ContentGenerator.OpenAICompatibleBackend g) gcConfig) /\
    forall (req : OpenAICompatible.GenerateContentParameters) (id : string)
           (w : OpenAICompatible.World),
    exists r,
      OpenAICompatible.sent (snd (OpenAICompatible.generateContent g req id w))
        = OpenAICompatible.sent w ++ [r] /\
      OpenAICompatible.url r
        = strip_trailing_slash
            (or_else (ContentGenerator.env proc !! Spec.base_url_var a)
               (Spec.default_base_url a))
          +:+ "/chat/completions" /\
      OpenAICompatible.req_headers r !! "Authorization"
        = Some ("Bearer " +:+ key) /\
      (OpenAICompatible.req_model req = None \/
       OpenAICompatible.req_model req = Some EmptyString ->
       OpenAICompatible.body_model (OpenAICompatible.body r)
         = or_else (Some (ContentGenerator.getModel gcConfig))
             DEFAULT_GEMINI_MODEL).
Proof.
  intros Ha Hk.
  rewrite (resolve_with_key DEFAULT_GEMINI_MODEL proc gcConfig a key Ha Hk).
  cbn [ContentGenerator.resolved ContentGenerator.plain].
  erewrite factory_openai_compatible; [| reflexivity | exact Ha].
  unfold OpenAICompatible.new, Spec.provider_config.
  cbn [OpenAICompatible.opt_baseUrl ContentGenerator.baseUrl].
  eexists. split; [reflexivity |].
  intros req id w. eexists.
  split; [apply generateContent_sends_one |].
  split; [reflexivity |]. split.
  - exact (factory_headers proc (Some key) "Authorization").
  - intros [Hm | Hm];
      cbn [OpenAICompatible.chat_request OpenAICompatible.body
           OpenAICompatible.body_model OpenAICompatible.defaultModel
           OpenAICompatible.opt_model ContentGenerator.model];
      rewrite Hm; reflexivity.
Qed.

Lemma X25_resolved_adapter_requests_witness :
  exists g,
    ContentGenerator.createContentGenerator Samples.process_with_all
      (ContentGenerator.resolved
         (ContentGenerator.createContentGeneratorConfig "gemini-2.5-pro"
            Samples.process_with_all Samples.sample_config
            (Some ContentGenerator.USE_DEEPSEEK)))
      Samples.sample_config None
    = Ok (ContentGenerator.LoggingContentGenerator
            (ContentGenerator.OpenAICompatibleBackend g) Samples.sample_config) /\
    exists r,
      OpenAICompatible.sent
        (snd (OpenAICompatible.generateContent g Samples.sample_request "p"
                (Samples.always Samples.response_hello))) = [r] /\
      OpenAICompatible.url r
        = "https://proxy.example.com/deepseek/chat/completions" /\
      OpenAICompatible.req_headers r !! "Authorization" = Some "Bearer d-key" /\
      OpenAICompatible.body_model (OpenAICompatible.body r) = "gpt-4o-mini".
Proof.
  assert (Ha : In ContentGenerator.USE_DEEPSEEK
                 ContentGenerator.openai_compatible_authTypes).
  { right. right. left. reflexivity. }
  destruct (X25_resolved_adapter_requests "gemini-2.5-pro"
              Samples.process_with_all Samples.sample_config None
              ContentGenerator.USE_DEEPSEEK "d-key" Ha eq_refl)
    as (g & Hc & Hreq).
  exists g. split; [exact Hc |].
  destruct (Hreq Samples.sample_request "p"
              (Samples.always Samples.response_hello))
    as (r & Hs & Hu & Hauth & Hm).
  exists r. split; [exact Hs |]. split; [exact Hu |]. split; [exact Hauth |].
  apply Hm. right. reflexivity.
Defined.

(** X26. With a selector of the OpenAI-compatible family each of whose
    key variables is unset or empty, resolving and then constructing
    fails: the configuration has no base URL, and the constructor of
    the adapter throws a [TypeError] on it; the error is not the one
    of an unsupported selector. *)
Theorem X26_missing_key_fails_at_construction (DEFAULT_GEMINI_MODEL : string)
    (proc : ContentGenerator.Process) (gcConfig : ContentGenerator.Config)
    (sessionId : option string) (a : string) :
  In a ContentGenerator.openai_compatible_authTypes ->
  (forall k, In k (Spec.credential_vars a) ->
     ContentGenerator.env proc !! k = None \/
     ContentGenerator.env proc !! k = Some EmptyString) ->
  ContentGenerator.createContentGenerator proc
    (ContentGenerator.resolved
       (ContentGenerator.createContentGeneratorConfig DEFAULT_GEMINI_MODEL
          proc gcConfig (Some a)))
    gcConfig sessionId
  = Throw (TypeError "Cannot read properties of undefined (reading 'replace')").
Proof.
  intros Ha Hk.
  rewrite resolve_without_key; [| exact Ha |].
  - cbn [ContentGenerator.resolved ContentGenerator.plain].
    erewrite factory_openai_compatible; [| reflexivity | exact Ha].
    reflexivity.
  - intros k Hin. destruct (Hk k Hin) as [-> | ->]; reflexivity.
Qed.

Lemma X26_missing_key_fails_at_construction_witness :
  ContentGenerator.createContentGenerator Samples.process_empty_key
    (ContentGenerator.resolved
       (ContentGenerator.createContentGeneratorConfig "gemini-2.5-pro"
          Samples.process_empty_key Samples.sample_config
          (Some ContentGenerator.USE_OPENAI)))
    Samples.sample_config None
  = Throw (TypeError "Cannot read properties of undefined (reading 'replace')").
Proof.
  apply (X26_missing_key_fails_at_construction "gemini-2.5-pro"
           Samples.process_empty_key Samples.sample_config None
           ContentGenerator.USE_OPENAI).
  - left. reflexivity.
  - intros k [<- | []]. right. reflexivity.
Defined.
